(** * EmojiMix plugin (src/main.py): a shallow embedding and its properties

    The plugin extracts emoji from a chat message, derives the Emoji Kitchen
    hex code of each, and probes a dated catalogue of composite images for the
    pair.  Python strings are sequences of Unicode code points; the emoji
    detection library, the iteration order of a set and the network are host
    capabilities and enter the development as parameters. *)

From Stdlib Require Import HexString QArith.
From stdpp Require Import base option list strings gmap.

Local Open Scope N_scope.
Local Open Scope list_scope.

(** ** Python strings *)

(** A [str] is a sequence of code points; [len], iteration, [ord] and
    comparison all work on code points. *)
Abbreviation pystr := (list N) (only parsing).

Module Str.

(** UTF-8 decoding, used only to write string literals of the source
    legibly: the literal's bytes are turned into code points. *)
Fixpoint utf8_decode (bs : list N) : pystr :=
  match bs with
  | [] => []
  | b0 :: r0 =>
      if b0 <? 0x80 then b0 :: utf8_decode r0
      else match r0 with
      | [] => []
      | b1 :: r1 =>
          if b0 <? 0xE0 then
            ((b0 - 0xC0) * 0x40 + (b1 - 0x80)) :: utf8_decode r1
          else match r1 with
          | [] => []
          | b2 :: r2 =>
              if b0 <? 0xF0 then
                ((b0 - 0xE0) * 0x1000 + (b1 - 0x80) * 0x40 + (b2 - 0x80))
                  :: utf8_decode r2
              else match r2 with
              | [] => []
              | b3 :: r3 =>
                  ((b0 - 0xF0) * 0x40000 + (b1 - 0x80) * 0x1000
                     + (b2 - 0x80) * 0x40 + (b3 - 0x80)) :: utf8_decode r3
              end
          end
      end
  end.

Definition bytes_of (s : string) : list N :=
  map Ascii.N_of_ascii (String.list_ascii_of_string s).

(** [py "..."] is the Python string written between the quotes. *)
Definition py (s : string) : pystr := utf8_decode (bytes_of s).

(** [sep.join(parts)] *)
Fixpoint join (sep : pystr) (parts : list pystr) : pystr :=
  match parts with
  | [] => []
  | [p] => p
  | p :: rest => p ++ sep ++ join sep rest
  end.

(** [f"{n:x}"]: lower-case hexadecimal, no prefix, no padding. *)
Definition hex (n : N) : pystr :=
  py (match n with
      | N0 => "0"
      | Npos p => HexString.Raw.of_pos p ""
      end).

(** Code points for which [str.isspace] holds; [str.strip()] removes
    exactly these from both ends. *)
Definition isspace (c : N) : bool :=
  ((0x09 <=? c) && (c <=? 0x0D)) || ((0x1C <=? c) && (c <=? 0x20))
  || (c =? 0x85) || (c =? 0xA0) || (c =? 0x1680)
  || ((0x2000 <=? c) && (c <=? 0x200A))
  || (c =? 0x2028) || (c =? 0x2029) || (c =? 0x202F)
  || (c =? 0x205F) || (c =? 0x3000).

Fixpoint lstrip (s : pystr) : pystr :=
  match s with
  | [] => []
  | c :: r => if isspace c then lstrip r else s
  end.

(** [s.strip()] *)
Definition strip (s : pystr) : pystr := rev (lstrip (rev (lstrip s))).

(** Truthiness of a string: only the empty string is falsy. *)
Definition truthy (s : pystr) : bool :=
  match s with [] => false | _ :: _ => true end.

End Str.

Import Str.

(** ** Exceptions and results *)

(** The exceptions that can travel through the plugin.  [FormatError] stands
    for a template that [str.format] does not render in this model: the
    [ValueError], [KeyError] or [IndexError] of a malformed template or an
    unknown field, and templates with conversions, format specs, attribute or
    index lookups.  [HostError] is any exception raised inside the emoji
    detection library. *)
Inductive exn : Type :=
| KeyError (key : string)
| ValueError (msg : pystr)
| TypeError (msg : pystr)
| AttributeError (msg : pystr)
| FormatError
| HostError (code : N).

Inductive result (A : Type) : Type :=
| Ok (a : A)
| Raise (e : exn).
Arguments Ok {A} a.
Arguments Raise {A} e.

Definition is_ok {A} (r : result A) : Prop :=
  match r with Ok _ => True | Raise _ => False end.

Definition raises {A} (r : result A) : Prop :=
  match r with Ok _ => False | Raise _ => True end.

#[global] Instance result_ret : MRet result := λ A a, Ok a.
#[global] Instance result_bind : MBind result := λ A B f r,
  match r with
  | Ok a => f a
  | Raise e => Raise e
  end.
#[global] Instance result_fmap : FMap result := λ A B f r,
  match r with
  | Ok a => Ok (f a)
  | Raise e => Raise e
  end.

(** [try: body  except Exception: return fallback] *)
Definition try_except {A} (body : result A) (fallback : A) : A :=
  match body with
  | Ok a => a
  | Raise _ => fallback
  end.

(** ** Configuration: a [Dict[str, Any]] *)

(** The values a configuration entry takes in this development: integers,
    floats (as rationals), strings and lists of strings. *)
Inductive value : Type :=
| VInt (n : Z)
| VFloat (q : Q)
| VStr (s : pystr)
| VList (l : list pystr).

(** [isinstance(v, list)] *)
Definition is_list (v : value) : bool :=
  match v with VList _ => true | _ => false end.

(** The plugin object: its only attribute of its own is [config]. *)
Record EmojiMixPlugin : Type := { config : gmap string value }.

(** [d[key]] *)
Definition getitem (d : gmap string value) (key : string) : result value :=
  match d !! key with
  | Some v => Ok v
  | None => Raise (KeyError key)
  end.

Definition default_date_codes : list pystr :=
  map py
    ["20240204"; "20250130"; "20241023"; "20241021"; "20240715";
     "20240610"; "20240530"; "20240214"; "20240206"; "20231128";
     "20231113"; "20230821"; "20230818"; "20230803"; "20230426";
     "20230421"; "20230418"; "20230405"; "20230301"; "20230221";
     "20230216"; "20230127"; "20230126"; "20221107"; "20221101";
     "20220823"; "20220815"; "20220506"; "20220406"; "20220203";
     "20220110"; "20211115"; "20210831"; "20210521"; "20210218";
     "20201001"]%string.

Definition default_config : gmap string value :=
  <["emoji_size" := VInt 128]>
  (<["twemoji_cdn" :=
       VStr (py "https://cdn.jsdelivr.net/npm/twemoji@latest/assets/svg/")]>
  (<["date_codes" := VList default_date_codes]>
  (<["base_url_template" :=
       VStr (py "https://www.gstatic.com/android/keyboard/emojikitchen/{date_code}/{hex1}/{hex1}_{hex2}.png")]>
  (<["request_timeout" := VFloat (3 # 1)]>
  (<["max_emoji_length" := VInt 2]> ∅))))).

Definition _load_config : gmap string value := default_config.

Definition required_keys : list string :=
  ["twemoji_cdn"; "base_url_template"; "date_codes"]%string.

(** The [for key in required_keys] loop of [_validate_config]. *)
Fixpoint check_required (cfg : gmap string value) (keys : list string)
  : result unit :=
  match keys with
  | [] => Ok tt
  | key :: rest =>
      match cfg !! key with
      | None => Raise (ValueError (py "配置缺失关键参数: " ++ py key))
      | Some _ => check_required cfg rest
      end
  end.

Definition _validate_config (self : EmojiMixPlugin) : result unit :=
  _ ← check_required (config self) required_keys;
  date_codes ← getitem (config self) "date_codes";
  if negb (is_list date_codes)
  then Raise (TypeError (py "date_codes必须为列表类型"))
  else Ok tt.

(** [__init__], parameterised by the configuration [_load_config] returns so
    that validation can be studied on any configuration.  The host context
    only goes to the framework's base class. *)
Definition init_with (cfg : gmap string value) : result EmojiMixPlugin :=
  let self := {| config := cfg |} in
  _ ← _validate_config self;
  Ok self.

Definition __init__ : result EmojiMixPlugin := init_with _load_config.

(** ** Hex Encoder *)

Definition variation_selectors : list N := [0xFE0E; 0xFE0F].

(** [_get_emoji_hex_code]: on a [str] nothing in the body raises, so the
    [except] branch (the [None] result) is never taken. *)
Definition _get_emoji_hex_code (emoji_char : pystr) : option pystr :=
  try_except
    (let filtered_chars := filter (λ c, c ∉ variation_selectors) emoji_char in
     Ok (Some (join (py "-") (map (λ c, py "u" ++ hex c) filtered_chars))))
    None.

(** [not x] for an [Optional[str]]: [None] and the empty string are falsy. *)
Definition falsy (x : option pystr) : bool :=
  match x with
  | None => true
  | Some s => negb (truthy s)
  end.

(** ** [str.format] with keyword arguments *)

(** Literal text, doubled braces and plain [{name}] fields are rendered;
    everything else is [FormatError].  [field] is the name being read when
    the scan is inside a replacement field. *)
Fixpoint format_scan (kwargs : list (pystr * pystr)) (field : option pystr)
  (s : pystr) : result pystr :=
  match field, s with
  | None, [] => Ok []
  | None, c :: r =>
      if c =? 0x7B then
        match r with
        | [] => Raise FormatError
        | c' :: r' =>
            if c' =? 0x7B then cons c <$> format_scan kwargs None r'
            else format_scan kwargs (Some []) r
        end
      else if c =? 0x7D then
        match r with
        | [] => Raise FormatError
        | c' :: r' =>
            if c' =? 0x7D then cons c <$> format_scan kwargs None r'
            else Raise FormatError
        end
      else cons c <$> format_scan kwargs None r
  | Some name, [] => Raise FormatError
  | Some name, c :: r =>
      if c =? 0x7D then
        match list_find (λ kv, kv.1 = name) kwargs with
        | Some (_, (_, v)) => app v <$> format_scan kwargs None r
        | None => Raise FormatError
        end
      else if bool_decide (c ∈ py "{[:!.") then Raise FormatError
      else format_scan kwargs (Some (name ++ [c])) r
  end.

Definition str_format (template : pystr) (kwargs : list (pystr * pystr))
  : result pystr :=
  format_scan kwargs None template.

(** [template.format(date_code=..., hex1=..., hex2=...)] on a configuration
    value: only a [str] has the method. *)
Definition format_url (template : value) (date_code hex1 hex2 : pystr)
  : result pystr :=
  match template with
  | VStr t =>
      str_format t
        [(py "date_code", date_code); (py "hex1", hex1); (py "hex2", hex2)]
  | VInt _ =>
      Raise (AttributeError (py "'int' object has no attribute 'format'"))
  | VFloat _ =>
      Raise (AttributeError (py "'float' object has no attribute 'format'"))
  | VList _ =>
      Raise (AttributeError (py "'list' object has no attribute 'format'"))
  end.

(** [for x in v] on a configuration value. *)
Definition iterate (v : value) : result (list pystr) :=
  match v with
  | VList l => Ok l
  | VStr s => Ok (map (λ c, [c]) s)
  | VInt _ => Raise (TypeError (py "'int' object is not iterable"))
  | VFloat _ => Raise (TypeError (py "'float' object is not iterable"))
  end.

(** ** Network effects *)

(** What [client.head(url, follow_redirects=True)] can do: answer with a
    status code, or raise [httpx.RequestError] (the base class of every
    exception httpx raises while issuing a request). *)
Inductive probe_outcome : Type :=
| Response (status_code : Z)
| RequestError.

#[global] Instance probe_outcome_eq_dec : EqDecision probe_outcome.
Proof. solve_decision. Defined.

(** The network seen by one request: the outcome of a probe of each URL. *)
Definition network : Type := pystr → probe_outcome.

(** A computation that may probe the network: it yields a result or an
    exception, and the URLs it probed, in the order it probed them. *)
Definition M (A : Type) : Type := network → result A * list pystr.

Definition run {A} (m : M A) (net : network) : result A * list pystr := m net.

#[global] Instance M_ret : MRet M := λ A a net, (Ok a, []).
#[global] Instance M_bind : MBind M := λ A B f m net,
  match m net with
  | (Ok a, probes) =>
      match f a net with
      | (r, probes') => (r, probes ++ probes')
      end
  | (Raise e, probes) => (Raise e, probes)
  end.

(** A pure step inside a network computation. *)
Definition lift {A} (r : result A) : M A := λ net, (r, []).

(** [await client.head(url, follow_redirects=True)] *)
Definition client_head (url : pystr) : M probe_outcome :=
  λ net, (Ok (net url), [url]).

(** ** Composite URL Resolver *)

(** [for url in url_candidates]: probe in turn, return the first URL that
    answers 200; any other status and a request error move on. *)
Fixpoint probe_candidates (url_candidates : list pystr) : M (option pystr) :=
  match url_candidates with
  | [] => mret None
  | url :: rest =>
      outcome ← client_head url;
      match outcome with
      | Response status_code =>
          if (status_code =? 200)%Z then mret (Some url)
          else probe_candidates rest
      | RequestError => probe_candidates rest
      end
  end.

(** The candidates built for one date code: the original order and, when the
    two emoji differ, the reverse order. *)
Definition url_candidates (self : EmojiMixPlugin) (emoji1 emoji2 : pystr)
  (emoji1_hex emoji2_hex date_code : pystr) : result (list pystr) :=
  template ← getitem (config self) "base_url_template";
  primary ← format_url template date_code emoji1_hex emoji2_hex;
  if decide (emoji1 ≠ emoji2) then
    template ← getitem (config self) "base_url_template";
    swapped ← format_url template date_code emoji2_hex emoji1_hex;
    Ok [primary; swapped]
  else Ok [primary].

(** [for date_code in self.config["date_codes"]] *)
Fixpoint scan_date_codes (self : EmojiMixPlugin) (emoji1 emoji2 : pystr)
  (emoji1_hex emoji2_hex : pystr) (date_codes : list pystr)
  : M (option pystr) :=
  match date_codes with
  | [] => mret None
  | date_code :: rest =>
      candidates ←
        lift (url_candidates self emoji1 emoji2 emoji1_hex emoji2_hex date_code);
      found ← probe_candidates candidates;
      match found with
      | Some url => mret (Some url)
      | None => scan_date_codes self emoji1 emoji2 emoji1_hex emoji2_hex rest
      end
  end.

(** The HTTP client is created with the configured timeout before the date
    codes are read. *)
Definition _find_mixed_emoji_url (self : EmojiMixPlugin)
  (emoji1 emoji2 : pystr) : M (option pystr) :=
  let emoji1_hex := _get_emoji_hex_code emoji1 in
  let emoji2_hex := _get_emoji_hex_code emoji2 in
  if falsy emoji1_hex || falsy emoji2_hex then mret None
  else
    _ ← lift (getitem (config self) "request_timeout");
    date_codes ← lift (getitem (config self) "date_codes" ≫= iterate);
    scan_date_codes self emoji1 emoji2
      (default [] emoji1_hex) (default [] emoji2_hex) date_codes.

(** ** Single-emoji download *)

(** What [client.get(url)] can do: answer with a status code and a body, or
    raise. *)
Inductive get_outcome : Type :=
| GetResponse (status_code : Z) (content : list Byte.byte)
| GetRaised (e : exn).

(** The CDN seen by one download: the outcome of a GET of each URL. *)
Definition cdn : Type := pystr → get_outcome.

Section Download.

(** [str(v)] for a configuration value that is not a string; a string is
    rendered as itself. *)
Variable str_of : value → pystr.

(** [f"{v}"] *)
Definition fstring_value (v : value) : pystr :=
  match v with
  | VStr s => s
  | _ => str_of v
  end.

(** The URL [download_emoji] builds, with the two configuration lookups of
    its [try] block in the order they happen. *)
Definition download_url (self : EmojiMixPlugin) (emoji_char : pystr)
  : result pystr :=
  let hex_codes := join (py "-") (map hex emoji_char) in
  base ← getitem (config self) "twemoji_cdn";
  let url := fstring_value base ++ hex_codes ++ py ".svg" in
  _ ← getitem (config self) "request_timeout";
  Ok url.

(** [download_emoji]: the body or [None], and the URLs requested.  Every
    exception is caught inside. *)
Definition download_emoji (self : EmojiMixPlugin) (emoji_char : pystr)
  (web : cdn) : option (list Byte.byte) * list pystr :=
  match download_url self emoji_char with
  | Raise _ => (None, [])
  | Ok url =>
      match web url with
      | GetResponse status_code content =>
          if (status_code =? 200)%Z then (Some content, [url])
          else (None, [url])
      | GetRaised _ => (None, [url])
      end
  end.

End Download.

(** ** Host framework: events and replies *)

Record AstrMessageEvent : Type := { message_str : pystr }.

Inductive MessageEventResult : Type :=
| PlainResult (text : pystr)
| ImageResult (url : pystr).

Definition plain_result (event : AstrMessageEvent) (text : pystr)
  : MessageEventResult := PlainResult text.

Definition image_result (event : AstrMessageEvent) (url : pystr)
  : MessageEventResult := ImageResult url.

(** The three plain-text replies of [_process_mix_request]. *)
Definition usage_hint : pystr :=
  py "🤔 请提供恰好两个不同的Emoji来合成" ++ [0x0A]
  ++ py "示例: `/emojimix 😊🐶` 或直接发送两个Emoji".

Definition must_differ : pystr := py "😅 两个Emoji不能相同哦~".

Definition not_found (emoji1 emoji2 : pystr) : pystr :=
  py "😟 抱歉，未找到" ++ emoji1 ++ py "和" ++ emoji2 ++ py "的混合Emoji"
  ++ [0x0A] ++ py "可能原因: 这对组合不存在 或 输入的不是标准Emoji".

(** ** Emoji Extractor and Request Handler *)

(** One match of [emoji.emoji_list]. *)
Record emoji_entry : Type :=
  { match_start : Z; match_end : Z; emoji : pystr }.

(** [l[:stop]] *)
Definition slice_to (l : list pystr) (stop : value) : result (list pystr) :=
  match stop with
  | VInt n =>
      if (0 <=? n)%Z then Ok (take (Z.to_nat n) l)
      else Ok (take (length l - Z.to_nat (- n))%nat l)
  | _ =>
      Raise (TypeError
        (py "slice indices must be integers or None or have an __index__ method"))
  end.

Section Plugin.

(** The emoji library: [emoji.emoji_list] and [emoji.is_emoji]. *)
Variable emoji_list : pystr → result (list emoji_entry).
Variable is_emoji : pystr → result bool.

(** [list(s)] for the set [s] built by adding the given items in turn: the
    order in which the set is iterated. *)
Variable set_order : list pystr → list pystr.

(** The set comprehension of [_extract_valid_emojis]: the items added to the
    set, in the order they are added. *)
Fixpoint collect_valid (emoji_entries : list emoji_entry)
  : result (list pystr) :=
  match emoji_entries with
  | [] => Ok []
  | entry :: rest =>
      valid ← is_emoji (emoji entry);
      added ← collect_valid rest;
      Ok (if valid : bool then emoji entry :: added else added)
  end.

Definition _extract_valid_emojis (self : EmojiMixPlugin) (text : pystr)
  : list pystr :=
  try_except
    (emoji_entries ← emoji_list text;
     added ← collect_valid emoji_entries;
     let valid_emojis := set_order added in
     stop ← getitem (config self) "max_emoji_length";
     slice_to valid_emojis stop)
    [].

(** [len(emojis) != 2] is the last branch of the match; [if mix_url] is the
    truthiness of an [Optional[str]]. *)
Definition _process_mix_request (self : EmojiMixPlugin)
  (event : AstrMessageEvent) (emojis : list pystr) : M MessageEventResult :=
  match emojis with
  | [emoji1; emoji2] =>
      if decide (emoji1 = emoji2) then mret (plain_result event must_differ)
      else
        mix_url ← _find_mixed_emoji_url self emoji1 emoji2;
        if negb (falsy mix_url)
        then mret (image_result event (default [] mix_url))
        else mret (plain_result event (not_found emoji1 emoji2))
  | _ => mret (plain_result event usage_hint)
  end.

Definition emoji_mix_handler (self : EmojiMixPlugin)
  (event : AstrMessageEvent) : M MessageEventResult :=
  let input_text := strip (message_str event) in
  let emojis := _extract_valid_emojis self input_text in
  _process_mix_request self event emojis.

(** The passive listener awaits the mixing flow and drops its result: the
    handler itself returns [None]. *)
Definition handle_double_emoji_message (self : EmojiMixPlugin)
  (event : AstrMessageEvent) : M unit :=
  let message_text := strip (message_str event) in
  if (10 <? length message_text)%nat then mret tt
  else
    let emojis := _extract_valid_emojis self message_text in
    if (length emojis =? 2)%nat then
      _ ← _process_mix_request self event emojis;
      mret tt
    else mret tt.

End Plugin.

(** * Vocabulary of the properties *)

(** What is asked of the iteration order of a set: each member once, nothing
    else. *)
Definition set_order_lawful (set_order : list pystr → list pystr) : Prop :=
  ∀ added, NoDup (set_order added) ∧ ∀ x, x ∈ set_order added ↔ x ∈ added.

(** What an ordered, short-circuiting search over [candidates] leaves behind:
    either a URL that answered 200, every candidate before it probed in order
    and none of them a 200, nothing after it probed; or nothing found, every
    candidate probed in order and none of them a 200. *)
Definition ordered_search (net : network) (candidates : list pystr)
  (found : option pystr) (probes : list pystr) : Prop :=
  match found with
  | Some url =>
      ∃ before after,
        candidates = before ++ url :: after
        ∧ probes = before ++ [url]
        ∧ net url = Response 200
        ∧ Forall (λ u, net u ≠ Response 200) before
  | None =>
      probes = candidates ∧ Forall (λ u, net u ≠ Response 200) candidates
  end.

(** The candidates of one date code, given how the template renders: primary
    order first, swapped order second. *)
Definition both_orders (url : pystr → pystr → pystr → pystr)
  (hex1 hex2 date_code : pystr) : list pystr :=
  [url date_code hex1 hex2; url date_code hex2 hex1].

(** The URL the built-in template renders. *)
Definition kitchen_url (date_code hex1 hex2 : pystr) : pystr :=
  py "https://www.gstatic.com/android/keyboard/emojikitchen/"
  ++ date_code ++ py "/" ++ hex1 ++ py "/" ++ hex1 ++ py "_" ++ hex2
  ++ py ".png".

(** The characters [0-9a-f]. *)
Definition is_hexdigit (c : N) : bool :=
  ((0x30 <=? c) && (c <=? 0x39)) || ((0x61 <=? c) && (c <=? 0x66)).

(** The code points the encoder keeps. *)
Definition without_selectors (emoji_char : pystr) : pystr :=
  filter (λ c, c ∉ variation_selectors) emoji_char.

(** Two networks with the same hits: the same URLs answer 200. *)
Definition same_hits (net net' : network) : Prop :=
  ∀ url, net url = Response 200 ↔ net' url = Response 200.

(** A network on which every probe fails with a request error, and one on
    which every probe answers 500. *)
Definition all_errors : network := λ _, RequestError.
Definition all_500 : network := λ _, Response 500.

(** ** Instances of the host capabilities, to run the handlers *)

(** A detector for single code point emoji: every code point of the
    pictograph blocks U+1F300..U+1FAFF is reported as one match.  On texts
    made of such emoji and plain letters it reports what the emoji library
    reports. *)
Definition in_pictographs (c : N) : bool := (0x1F300 <=? c) && (c <=? 0x1FAFF).

Fixpoint pictograph_matches (start : Z) (text : pystr) : list emoji_entry :=
  match text with
  | [] => []
  | c :: rest =>
      if in_pictographs c
      then {| match_start := start; match_end := start + 1; emoji := [c] |}
             :: pictograph_matches (start + 1) rest
      else pictograph_matches (start + 1) rest
  end.

Definition pictograph_list (text : pystr) : result (list emoji_entry) :=
  Ok (pictograph_matches 0 text).

Definition pictograph_is_emoji (s : pystr) : result bool :=
  Ok (match s with [c] => in_pictographs c | _ => false end).

(** A detector whose scan always fails. *)
Definition broken_list (text : pystr) : result (list emoji_entry) :=
  Raise (HostError 0).

(** The plugin object [__init__] builds. *)
Definition the_plugin : EmojiMixPlugin := {| config := default_config |}.

Definition message (text : string) : AstrMessageEvent :=
  {| message_str := py text |}.

(** A network on which every probe answers 200, and one on which only the
    swapped-order composite of 😊 and 🐶 dated 20241023 exists, the very
    first candidate failing with a request error. *)
Definition all_found : network := λ _, Response 200.

Definition only_swapped_20241023 : network := λ url,
  if decide (url = kitchen_url (py "20241023") (py "u1f436") (py "u1f60a"))
  then Response 200
  else if decide (url = kitchen_url (py "20240204") (py "u1f60a") (py "u1f436"))
  then RequestError
  else Response 404.

(** * Properties *)

(** ** The string operations, run *)

Example py_literals :
  py "😊" = [0x1F60A]
  ∧ py "a é 两🐶" = [0x61; 0x20; 0xE9; 0x20; 0x4E24; 0x1F436].
Proof. split; reflexivity. Qed.

Example hex_runs :
  hex 0 = py "0" ∧ hex 0x1F60A = py "1f60a" ∧ hex 0xFE0F = py "fe0f".
Proof. repeat split; reflexivity. Qed.

Example join_runs :
  join (py "-") [] = [] ∧ join (py "-") [py "a"] = py "a"
  ∧ join (py "-") [py "a"; py "b"; py "c"] = py "a-b-c".
Proof. repeat split; reflexivity. Qed.

Example strip_runs :
  strip (py "  😊🐶 ") = py "😊🐶" ∧ strip (py " a b ") = py "a b"
  ∧ strip (py "   ") = [].
Proof. repeat split; reflexivity. Qed.

Example format_runs :
  str_format (py "{hex1") [(py "hex1", py "a")] = Raise FormatError
  ∧ str_format (py "}") [] = Raise FormatError
  ∧ str_format (py "{x}") [(py "hex1", py "a")] = Raise FormatError
  ∧ str_format (py "{{x}}{hex1}") [(py "hex1", py "a")] = Ok (py "{x}a").
Proof. repeat split; reflexivity. Qed.

Example hex_code_runs :
  _get_emoji_hex_code (py "😊") = Some (py "u1f60a")
  ∧ _get_emoji_hex_code (py "🇨🇳") = Some (py "u1f1e8-u1f1f3")
  ∧ _get_emoji_hex_code (py "❤️") = Some (py "u2764").
Proof. repeat split; reflexivity. Qed.

(** The built-in template renders, whatever is substituted. *)
Lemma default_template_renders date_code a b :
  format_url
    (VStr (py "https://www.gstatic.com/android/keyboard/emojikitchen/{date_code}/{hex1}/{hex1}_{hex2}.png"))
    date_code a b
  = Ok (kitchen_url date_code a b).
Proof. vm_compute. reflexivity. Qed.

(** ** The monads *)

Lemma result_bind_ok {A B} (a : A) (f : A → result B) : Ok a ≫= f = f a.
Proof. reflexivity. Qed.

Lemma run_ret {A} (a : A) net : run (mret a) net = (Ok a, []).
Proof. reflexivity. Qed.

Lemma run_lift {A} (r : result A) net : run (lift r) net = (r, []).
Proof. reflexivity. Qed.

Lemma run_bind {A B} (m : M A) (f : A → M B) net :
  run (m ≫= f) net =
  match run m net with
  | (Ok a, probes) => ((run (f a) net).1, probes ++ (run (f a) net).2)
  | (Raise e, probes) => (Raise e, probes)
  end.
Proof.
  unfold run, mbind, M_bind.
  destruct (m net) as [[a|e] probes]; [|done].
  by destruct (f a net).
Qed.

(** ** Hex Encoder *)

Section HexEncoder.

Implicit Types (emoji_char selectors : pystr).

(** The encoder always yields a string: the [None] signal is out of reach. *)
Lemma hex_code_is_some emoji_char :
  _get_emoji_hex_code emoji_char =
  Some (join (py "-")
          (map (λ c, py "u" ++ hex c)
               (filter (λ c, c ∉ variation_selectors) emoji_char))).
Proof. reflexivity. Qed.

Lemma filter_selectors selectors :
  Forall (λ c, c ∈ variation_selectors) selectors →
  filter (λ c, c ∉ variation_selectors) selectors = [].
Proof.
  induction 1 as [|c rest Hc _ IH]; [done|].
  rewrite filter_cons_False; [exact IH | by intros Hn].
Qed.

Lemma join_nil_inv (sep : pystr) (parts : list pystr) :
  join sep parts = [] → Forall (λ p, p = []) parts.
Proof.
  induction parts as [|p [|q rest] IH]; simpl; intros Hj.
  - constructor.
  - subst. by repeat constructor.
  - apply app_eq_nil in Hj as [-> Hj].
    apply app_eq_nil in Hj as [_ Hj]. constructor; [done | by apply IH].
Qed.

(** An emoji with a code point that is not a variation selector has a
    non-empty hex code: the encoder does not fail on it. *)
Lemma hex_code_truthy emoji_char c :
  c ∈ emoji_char → c ∉ variation_selectors →
  falsy (_get_emoji_hex_code emoji_char) = false.
Proof.
  intros Hin Hsel. rewrite hex_code_is_some. simpl.
  destruct (join _ _) as [|? ?] eqn:Hj; [|done].
  apply join_nil_inv in Hj. rewrite Forall_forall in Hj.
  specialize (Hj (py "u" ++ hex c)).
  discriminate Hj.
  apply list_elem_of_fmap. exists c. split; [done|].
  by apply list_elem_of_filter.
Qed.

(** C3.  Appending variation selectors (U+FE0E, U+FE0F) to an emoji string
    does not change the output of the Hex Encoder: the hex code of the string
    followed by any run of selectors is the hex code of the string alone. *)
Theorem hex_code_ignores_appended_selectors emoji_char selectors :
  Forall (λ c, c ∈ variation_selectors) selectors →
  _get_emoji_hex_code (emoji_char ++ selectors)
  = _get_emoji_hex_code emoji_char.
Proof.
  intros Hsel. rewrite !hex_code_is_some.
  by rewrite filter_app, (filter_selectors selectors), app_nil_r.
Qed.

End HexEncoder.

Lemma hex_code_ignores_appended_selectors_witness :
  _get_emoji_hex_code (py "❤" ++ [0xFE0F; 0xFE0E; 0xFE0F])
  = _get_emoji_hex_code (py "❤").
Proof.
  apply (hex_code_ignores_appended_selectors (py "❤") [0xFE0F; 0xFE0E; 0xFE0F]).
  repeat constructor.
Defined.

(** ** Composite URL Resolver: encoding failures *)

(** C6.  If the Hex Encoder fails on either emoji (its result is falsy: the
    [None] signal or the empty string), the resolver returns not-found and
    probes nothing. *)
Theorem encoding_failure_aborts self (emoji1 emoji2 : pystr) net :
  falsy (_get_emoji_hex_code emoji1) = true
  ∨ falsy (_get_emoji_hex_code emoji2) = true →
  run (_find_mixed_emoji_url self emoji1 emoji2) net = (Ok None, []).
Proof.
  intros [H|H]; unfold _find_mixed_emoji_url; rewrite H.
  - reflexivity.
  - by rewrite orb_true_r.
Qed.

Lemma encoding_failure_aborts_witness :
  run (_find_mixed_emoji_url the_plugin (py "😊") [0xFE0F]) all_found
  = (Ok None, []).
Proof.
  apply (encoding_failure_aborts the_plugin (py "😊") [0xFE0F] all_found).
  right. reflexivity.
Defined.

(** C10.  On a string made only of variation selectors the Hex Encoder
    returns the empty string, not [None]; the resolver given such a string as
    either argument returns not-found and probes nothing. *)
Theorem selectors_only_is_encoding_failure self (selectors other : pystr) net :
  Forall (λ c, c ∈ variation_selectors) selectors →
  _get_emoji_hex_code selectors = Some []
  ∧ run (_find_mixed_emoji_url self selectors other) net = (Ok None, [])
  ∧ run (_find_mixed_emoji_url self other selectors) net = (Ok None, []).
Proof.
  intros Hsel.
  assert (Hcode : _get_emoji_hex_code selectors = Some []).
  { rewrite hex_code_is_some. by rewrite filter_selectors. }
  split; [exact Hcode|].
  split; unfold _find_mixed_emoji_url; rewrite Hcode; simpl.
  - reflexivity.
  - by rewrite orb_true_r.
Qed.

Lemma selectors_only_is_encoding_failure_witness :
  _get_emoji_hex_code [0xFE0F; 0xFE0E] = Some []
  ∧ run (_find_mixed_emoji_url the_plugin [0xFE0F; 0xFE0E] (py "🐶")) all_found
    = (Ok None, [])
  ∧ run (_find_mixed_emoji_url the_plugin (py "🐶") [0xFE0F; 0xFE0E]) all_found
    = (Ok None, []).
Proof.
  apply (selectors_only_is_encoding_failure
           the_plugin [0xFE0F; 0xFE0E] (py "🐶") all_found).
  repeat constructor.
Defined.

(** ** Composite URL Resolver: probe order *)

Section ProbeOrder.

Variable net : network.

Lemma probe_candidates_step url rest :
  run (probe_candidates (url :: rest)) net =
  if decide (net url = Response 200) then (Ok (Some url), [url])
  else ((run (probe_candidates rest) net).1,
        url :: (run (probe_candidates rest) net).2).
Proof.
  cbn [probe_candidates]. rewrite run_bind. unfold client_head, run at 1.
  destruct (net url) as [code|] eqn:Hnet.
  - destruct (code =? 200)%Z eqn:Hcode.
    + apply Z.eqb_eq in Hcode as ->. by rewrite decide_True.
    + apply Z.eqb_neq in Hcode. rewrite decide_False; [done | congruence].
  - by rewrite decide_False.
Qed.

(** The inner loop never raises, and is an ordered search of its list. *)
Lemma probe_candidates_ordered urls :
  ∃ found probes,
    run (probe_candidates urls) net = (Ok found, probes)
    ∧ ordered_search net urls found probes.
Proof.
  induction urls as [|url rest (found & probes & Hrun & Hsearch)].
  - exists None, []. by repeat split.
  - rewrite probe_candidates_step. case_decide as Hnet.
    + exists (Some url), [url]. split; [done|].
      exists [], rest. by repeat split.
    + rewrite Hrun. exists found, (url :: probes). split; [done|].
      destruct found as [hit|]; simpl in *.
      * destruct Hsearch as (before & after & -> & -> & Hhit & Hbefore).
        exists (url :: before), after. repeat split; [done|by constructor].
      * destruct Hsearch as [-> Hall]. split; [done | by constructor].
Qed.

(** Searching a concatenation: the second part is searched only when the
    first yields nothing. *)
Lemma probe_candidates_app urls1 urls2 :
  run (probe_candidates (urls1 ++ urls2)) net =
  match run (probe_candidates urls1) net with
  | (Ok None, probes) =>
      ((run (probe_candidates urls2) net).1,
       probes ++ (run (probe_candidates urls2) net).2)
  | other => other
  end.
Proof.
  induction urls1 as [|url rest IH].
  - cbn [probe_candidates app]. rewrite run_ret. by destruct (run _ net).
  - rewrite <- app_comm_cons, !probe_candidates_step.
    case_decide; [done|]. rewrite IH.
    destruct (run (probe_candidates rest) net) as [[[hit|]|e] probes]; done.
Qed.

Variables (self : EmojiMixPlugin) (emoji1 emoji2 emoji1_hex emoji2_hex : pystr).
Variable template : pystr.
Variable url : pystr → pystr → pystr → pystr.

Hypothesis config_template :
  config self !! "base_url_template" = Some (VStr template).
Hypothesis template_renders :
  ∀ date_code hex1 hex2,
    format_url (VStr template) date_code hex1 hex2
    = Ok (url date_code hex1 hex2).
Hypothesis distinct : emoji1 ≠ emoji2.

Lemma url_candidates_both date_code :
  url_candidates self emoji1 emoji2 emoji1_hex emoji2_hex date_code
  = Ok (both_orders url emoji1_hex emoji2_hex date_code).
Proof using config_template template_renders distinct.
  unfold url_candidates, getitem. rewrite config_template.
  rewrite result_bind_ok, template_renders, result_bind_ok.
  rewrite decide_True by done.
  by rewrite result_bind_ok, template_renders, result_bind_ok.
Qed.

(** The nested loops (dates outside, orderings inside) are one linear search
    over the date-major list of candidates. *)
Lemma scan_date_codes_flat date_codes :
  run (scan_date_codes self emoji1 emoji2 emoji1_hex emoji2_hex date_codes) net
  = run (probe_candidates
           (date_codes ≫= both_orders url emoji1_hex emoji2_hex)) net.
Proof using config_template template_renders distinct.
  induction date_codes as [|date_code rest IH].
  - reflexivity.
  - cbn [scan_date_codes]. rewrite run_bind, run_lift, url_candidates_both.
    cbn [fst snd]. rewrite app_nil_l.
    change ((date_code :: rest) ≫= both_orders url emoji1_hex emoji2_hex)
      with (both_orders url emoji1_hex emoji2_hex date_code
              ++ (rest ≫= both_orders url emoji1_hex emoji2_hex)).
    rewrite probe_candidates_app, run_bind.
    destruct (run (probe_candidates
                     (both_orders url emoji1_hex emoji2_hex date_code)) net)
      as [[[hit|]|e] probes]; [by rewrite run_ret, app_nil_r | | done].
    rewrite IH. by destruct (run _ net).
Qed.

End ProbeOrder.

Lemma falsy_some_nonempty (s : pystr) : s ≠ [] → falsy (Some s) = false.
Proof. by destruct s. Qed.



(** A run of the resolver: the first probe fails with a request error, four
    more candidates answer 404, and the swapped candidate of the third date
    code is returned; nothing after it is probed. *)
Example resolver_runs :
  run (_find_mixed_emoji_url the_plugin (py "😊") (py "🐶"))
    only_swapped_20241023
  = (Ok (Some (kitchen_url (py "20241023") (py "u1f436") (py "u1f60a"))),
     [kitchen_url (py "20240204") (py "u1f60a") (py "u1f436");
      kitchen_url (py "20240204") (py "u1f436") (py "u1f60a");
      kitchen_url (py "20250130") (py "u1f60a") (py "u1f436");
      kitchen_url (py "20250130") (py "u1f436") (py "u1f60a");
      kitchen_url (py "20241023") (py "u1f60a") (py "u1f436");
      kitchen_url (py "20241023") (py "u1f436") (py "u1f60a")]).
Proof. vm_compute. reflexivity. Qed.

(** With no composite anywhere, all 72 candidates are probed, in order. *)
Example resolver_exhausts :
  run (_find_mixed_emoji_url the_plugin (py "😊") (py "🐶")) (λ _, Response 404)
  = (Ok None,
     default_date_codes ≫= both_orders kitchen_url (py "u1f60a") (py "u1f436")).
Proof. vm_compute. reflexivity. Qed.

(** ** Initialization *)

Lemma check_required_ok cfg keys :
  check_required cfg keys = Ok tt ↔ Forall (λ key, is_Some (cfg !! key)) keys.
Proof.
  induction keys as [|key rest IH]; simpl.
  - split; [constructor | done].
  - rewrite Forall_cons. destruct (cfg !! key) as [v|] eqn:Hkey.
    + rewrite IH. split; [by eauto | by intros [_ ?]].
    + split; [done | by intros [[? ?] _]].
Qed.

Lemma check_required_cases cfg keys :
  check_required cfg keys = Ok tt
  ∨ ∃ key, key ∈ keys ∧ cfg !! key = None
           ∧ check_required cfg keys
             = Raise (ValueError (py "配置缺失关键参数: " ++ py key)).
Proof.
  induction keys as [|key rest IH]; simpl; [by left|].
  destruct (cfg !! key) as [v|] eqn:Hkey.
  - destruct IH as [IH|(k & Hin & Hk & IH)]; [by left|].
    right. exists k. split; [by right | done].
  - right. exists key. split; [by left | done].
Qed.

(** A missing key is reported as [ValueError], a date-code entry that is not
    a list as [TypeError]; nothing else is raised. *)
Lemma init_with_cases cfg :
  match init_with cfg with
  | Ok self =>
      config self = cfg
      ∧ Forall (λ key, is_Some (cfg !! key)) required_keys
      ∧ ∃ l, cfg !! "date_codes" = Some (VList l)
  | Raise (ValueError _) => ∃ key, key ∈ required_keys ∧ cfg !! key = None
  | Raise (TypeError _) =>
      ∃ v, cfg !! "date_codes" = Some v ∧ is_list v = false
  | Raise _ => False
  end.
Proof.
  unfold init_with, _validate_config; cbn [config].
  destruct (check_required_cases cfg required_keys) as [Hok|(k & Hin & Hk & Hr)].
  - rewrite Hok. simpl. apply check_required_ok in Hok.
    assert (Hd : is_Some (cfg !! "date_codes")).
    { rewrite Forall_forall in Hok. apply Hok. set_solver. }
    destruct Hd as [v Hv]. unfold getitem. rewrite Hv. simpl.
    destruct v; simpl; eauto.
  - rewrite Hr. simpl. eauto.
Qed.

Lemma initialization_default : __init__ = Ok the_plugin.
Proof. vm_compute. reflexivity. Qed.

(** C7.  Initialization raises exactly when the configuration lacks one of
    the required keys (CDN base, URL template, date-code list) or its
    date-code entry is not a list; with the built-in configuration it
    succeeds. *)
Theorem initialization_raises_iff :
  (∀ cfg, raises (init_with cfg) ↔
     (∃ key, key ∈ required_keys ∧ cfg !! key = None)
     ∨ (∃ v, cfg !! "date_codes" = Some v ∧ is_list v = false))
  ∧ is_ok __init__.
Proof.
  split; [|by vm_compute].
  intros cfg. pose proof (init_with_cases cfg) as Hc.
  destruct (init_with cfg) as [self|e]; simpl.
  - destruct Hc as (_ & Hkeys & l & Hl). split; [done|].
    intros [(key & Hin & Hnone)|(v & Hv & Hnl)].
    + rewrite Forall_forall in Hkeys. destruct (Hkeys key Hin) as [? ?].
      congruence.
    + rewrite Hl in Hv. by inversion Hv; subst.
  - split; [|done]. intros _. destruct e; try done; [by left | by right].
Qed.

Example initialization_missing_key :
  init_with (delete "base_url_template" default_config)
  = Raise (ValueError (py "配置缺失关键参数: base_url_template")).
Proof. vm_compute. reflexivity. Qed.

Example initialization_wrong_type :
  init_with (<["date_codes" := VStr (py "20240204")]> default_config)
  = Raise (TypeError (py "date_codes必须为列表类型")).
Proof. vm_compute. reflexivity. Qed.

(** ** Emoji Extractor *)

Lemma slice_to_take (l : list pystr) stop l' :
  slice_to l stop = Ok l' → ∃ k, l' = take k l.
Proof.
  destruct stop as [n| | |]; simpl; try done.
  destruct (0 <=? n)%Z; intros [= <-]; eauto.
Qed.

Lemma slice_to_length (l : list pystr) n l' :
  (0 ≤ n)%Z → slice_to l (VInt n) = Ok l' → (length l' ≤ Z.to_nat n)%nat.
Proof.
  intros Hn. simpl. destruct (Z.leb_spec 0 n); [|lia].
  intros [= <-]. rewrite length_take. lia.
Qed.

Lemma short_of_one_value (e : pystr) (l : list pystr) :
  NoDup l → (∀ x, x ∈ l → x = e) → (length l ≤ 1)%nat.
Proof.
  intros Hnd Hall. destruct l as [|x [|y rest]]; simpl; [lia | lia |].
  exfalso. apply NoDup_cons in Hnd as [Hx _]. apply Hx.
  rewrite (Hall x), <- (Hall y); [by left | by right; left | by left].
Qed.

(** A set of two members is iterated in one of two orders. *)
Lemma two_element_order (l : list pystr) (e1 e2 : pystr) :
  NoDup l → e1 ≠ e2 → (∀ x, x ∈ l ↔ x = e1 ∨ x = e2) →
  l = [e1; e2] ∨ l = [e2; e1].
Proof.
  intros Hnd Hne Hel.
  assert (H1 : e1 ∈ l) by (apply Hel; by left).
  assert (H2 : e2 ∈ l) by (apply Hel; by right).
  destruct l as [|a [|b [|c r]]].
  - by apply elem_of_nil in H1.
  - apply list_elem_of_singleton in H1, H2. congruence.
  - assert (Ha : a = e1 ∨ a = e2) by (apply Hel; by left).
    assert (Hb : b = e1 ∨ b = e2) by (apply Hel; by right; left).
    apply NoDup_cons in Hnd as [Hab _].
    rewrite list_elem_of_singleton in Hab.
    destruct Ha as [-> | ->], Hb as [-> | ->]; auto; done.
  - exfalso.
    assert (Ha : a = e1 ∨ a = e2) by (apply Hel; by left).
    assert (Hb : b = e1 ∨ b = e2) by (apply Hel; by right; left).
    assert (Hc : c = e1 ∨ c = e2) by (apply Hel; by right; right; left).
    apply NoDup_cons in Hnd as [Hab Hnd]. apply NoDup_cons in Hnd as [Hbc _].
    apply not_elem_of_cons in Hab as [Hab Hac].
    apply not_elem_of_cons in Hac as [Hac _].
    apply not_elem_of_cons in Hbc as [Hbc _].
    destruct Ha as [-> | ->], Hb as [-> | ->], Hc as [-> | ->]; done.
Qed.

(** Keeping one occurrence of each item is a lawful iteration order. *)
Lemma remove_dups_lawful : set_order_lawful remove_dups.
Proof.
  intros added. split; [apply NoDup_remove_dups|].
  intros x. apply elem_of_remove_dups.
Qed.

Section Extractor.

Variable emoji_list : pystr → result (list emoji_entry).
Variable is_emoji : pystr → result bool.
Variable set_order : list pystr → list pystr.

Local Abbreviation extract :=
  (_extract_valid_emojis emoji_list is_emoji set_order).

(** The extractor, with its [try] block spelled out. *)
Lemma extract_unfold self text :
  extract self text =
  match emoji_list text with
  | Ok emoji_entries =>
      match collect_valid is_emoji emoji_entries with
      | Ok added =>
          match config self !! "max_emoji_length" with
          | Some stop =>
              match slice_to (set_order added) stop with
              | Ok emojis => emojis
              | Raise _ => []
              end
          | None => []
          end
      | Raise _ => []
      end
  | Raise _ => []
  end.
Proof.
  unfold _extract_valid_emojis, getitem.
  destruct (emoji_list text) as [entries|]; [|done]. rewrite result_bind_ok.
  destruct (collect_valid is_emoji entries) as [added|]; [|done].
  rewrite result_bind_ok.
  by destruct (config self !! "max_emoji_length").
Qed.

(** The result is an initial segment of the iteration order of the set. *)
Lemma extract_take self text :
  ∃ added k, extract self text = take k (set_order added).
Proof.
  rewrite extract_unfold.
  destruct (emoji_list text) as [entries|]; [|by exists [], 0%nat].
  destruct (collect_valid is_emoji entries) as [added|]; [|by exists [], 0%nat].
  destruct (config self !! "max_emoji_length") as [stop|];
    [|by exists [], 0%nat].
  destruct (slice_to (set_order added) stop) as [l|] eqn:Hs;
    [|by exists [], 0%nat].
  apply slice_to_take in Hs as [k ->]. by exists added, k.
Qed.

Lemma collect_valid_elem emoji_entries added x :
  collect_valid is_emoji emoji_entries = Ok added → x ∈ added →
  ∃ entry, entry ∈ emoji_entries ∧ emoji entry = x ∧ is_emoji x = Ok true.
Proof.
  revert added. induction emoji_entries as [|entry rest IH]; simpl; intros added.
  - intros [= <-] Hx. by apply elem_of_nil in Hx.
  - destruct (is_emoji (emoji entry)) as [valid|] eqn:Hvalid; [|done].
    rewrite result_bind_ok.
    destruct (collect_valid is_emoji rest) as [added'|]; [|done].
    rewrite result_bind_ok. intros [= <-] Hx.
    assert (Hcases : (valid = true ∧ x = emoji entry) ∨ x ∈ added').
    { destruct valid; [|by right].
      apply elem_of_cons in Hx as [->|Hx]; [by left | by right]. }
    destruct Hcases as [[-> ->]|Hx'].
    + exists entry. split; [by left | done].
    + destruct (IH added' eq_refl Hx') as (entry' & Hin & Hemoji & Hok).
      exists entry'. split; [by right | done].
Qed.

Lemma collect_valid_raises emoji_entries entry :
  entry ∈ emoji_entries → raises (is_emoji (emoji entry)) →
  raises (collect_valid is_emoji emoji_entries).
Proof.
  induction emoji_entries as [|first rest IH]; intros Hin Hraise.
  - by apply elem_of_nil in Hin.
  - simpl. destruct (is_emoji (emoji first)) as [valid|] eqn:Hvalid; [|done].
    rewrite result_bind_ok.
    apply elem_of_cons in Hin as [->|Hin]; [by rewrite Hvalid in Hraise|].
    specialize (IH Hin Hraise).
    by destruct (collect_valid is_emoji rest).
Qed.

(** C9.  If the emoji detection raises, be it the scan of the text or the
    validity check of one of the matches, the extractor returns the empty
    list: the exception does not leave it. *)
Theorem extractor_absorbs_detection_failure self text :
  raises (emoji_list text)
  ∨ (∃ emoji_entries entry,
       emoji_list text = Ok emoji_entries ∧ entry ∈ emoji_entries
       ∧ raises (is_emoji (emoji entry))) →
  extract self text = [].
Proof.
  rewrite extract_unfold. intros [Hraise|(entries & entry & -> & Hin & Hraise)].
  - by destruct (emoji_list text).
  - pose proof (collect_valid_raises entries entry Hin Hraise) as Hc.
    by destruct (collect_valid is_emoji entries).
Qed.

Hypothesis lawful : set_order_lawful set_order.

Lemma extract_NoDup self text : NoDup (extract self text).
Proof using lawful.
  destruct (extract_take self text) as (added & k & ->).
  eapply sublist_NoDup; [apply lawful | apply sublist_take].
Qed.

(** Every string returned is the emoji of a match that passed the validity
    check. *)
Lemma extract_elem self text x :
  x ∈ extract self text →
  ∃ emoji_entries entry,
    emoji_list text = Ok emoji_entries ∧ entry ∈ emoji_entries
    ∧ emoji entry = x ∧ is_emoji x = Ok true.
Proof using lawful.
  rewrite extract_unfold.
  destruct (emoji_list text) as [entries|]; [|by intros ?%elem_of_nil].
  destruct (collect_valid is_emoji entries) as [added|] eqn:Hc;
    [|by intros ?%elem_of_nil].
  destruct (config self !! "max_emoji_length") as [stop|];
    [|by intros ?%elem_of_nil].
  destruct (slice_to (set_order added) stop) as [l|] eqn:Hs;
    [|by intros ?%elem_of_nil].
  apply slice_to_take in Hs as [k ->]. intros Hx.
  assert (Hadded : x ∈ added).
  { apply lawful. by eapply elem_of_sublist; [|apply sublist_take]. }
  destruct (collect_valid_elem entries added x Hc Hadded) as (entry & ? & ? & ?).
  by exists entries, entry.
Qed.

(** Whatever the configuration, a non-negative maximum bounds the length. *)
Lemma extract_length self text n :
  config self !! "max_emoji_length" = Some (VInt n) → (0 ≤ n)%Z →
  (length (extract self text) ≤ Z.to_nat n)%nat.
Proof.
  intros Hmax Hn. rewrite extract_unfold, Hmax.
  destruct (emoji_list text) as [entries|]; [|simpl; lia].
  destruct (collect_valid is_emoji entries) as [added|]; [|simpl; lia].
  destruct (slice_to (set_order added) (VInt n)) as [l|] eqn:Hs; [|simpl; lia].
  by apply slice_to_length in Hs.
Qed.

(** A text whose valid matches are two distinct emoji yields both, in the
    order the set is iterated, as soon as the maximum allows two. *)
Lemma extract_pair self text emoji_entries added (e1 e2 : pystr) n :
  config self !! "max_emoji_length" = Some (VInt n) → (2 ≤ n)%Z →
  emoji_list text = Ok emoji_entries →
  collect_valid is_emoji emoji_entries = Ok added →
  e1 ≠ e2 → (∀ x, x ∈ added ↔ x = e1 ∨ x = e2) →
  extract self text = [e1; e2] ∨ extract self text = [e2; e1].
Proof using lawful.
  intros Hmax Hn Hlist Hcollect Hne Hadded.
  rewrite extract_unfold, Hlist, Hcollect, Hmax. simpl.
  destruct (Z.leb_spec 0 n); [|lia].
  destruct (lawful added) as [Hnd Hel].
  assert (Hl : ∀ x, x ∈ set_order added ↔ x = e1 ∨ x = e2).
  { intros x. by rewrite Hel. }
  destruct (two_element_order _ e1 e2 Hnd Hne Hl) as [-> | ->];
    [left | right]; apply take_ge; simpl; lia.
Qed.

(** C8.  On the plugin as initialized, for every input text the extractor
    returns pairwise distinct strings, at most 2 of them, and never more than
    the configured maximum count. *)
Theorem extractor_distinct_and_bounded self text :
  __init__ = Ok self →
  NoDup (extract self text)
  ∧ (length (extract self text) ≤ 2)%nat
  ∧ ∃ max : Z,
      config self !! "max_emoji_length" = Some (VInt max)
      ∧ (length (extract self text) ≤ Z.to_nat max)%nat.
Proof using lawful.
  intros Hinit.
  assert (Hmax : config self !! "max_emoji_length" = Some (VInt 2)).
  { rewrite initialization_default in Hinit. by injection Hinit as <-. }
  pose proof (extract_length self text 2 Hmax ltac:(lia)) as Hlen.
  split; [apply extract_NoDup|]. split; [exact Hlen|].
  exists 2%Z. by split.
Qed.

End Extractor.

Lemma extractor_absorbs_detection_failure_witness :
  _extract_valid_emojis broken_list pictograph_is_emoji remove_dups
    the_plugin (py "😊🐶") = [].
Proof.
  apply (extractor_absorbs_detection_failure
           broken_list pictograph_is_emoji remove_dups the_plugin (py "😊🐶")).
  left. exact I.
Defined.

Lemma extractor_distinct_and_bounded_witness :
  let emojis :=
    _extract_valid_emojis pictograph_list pictograph_is_emoji remove_dups
      the_plugin (py "a😊🐶😊🐱") in
  NoDup emojis
  ∧ (length emojis ≤ 2)%nat
  ∧ ∃ max : Z,
      config the_plugin !! "max_emoji_length" = Some (VInt max)
      ∧ (length emojis ≤ Z.to_nat max)%nat.
Proof.
  apply (extractor_distinct_and_bounded
           pictograph_list pictograph_is_emoji remove_dups
           remove_dups_lawful the_plugin (py "a😊🐶😊🐱")).
  vm_compute. reflexivity.
Defined.

(** Three distinct emoji, one of them twice: two come back.  Twice the same
    emoji: one comes back.  A validity check that raises on the second match:
    nothing comes back. *)
Example extractor_runs :
  _extract_valid_emojis pictograph_list pictograph_is_emoji remove_dups
    the_plugin (py "a😊🐶😊🐱") = [py "🐶"; py "😊"]
  ∧ _extract_valid_emojis pictograph_list pictograph_is_emoji remove_dups
      the_plugin (py "😊😊") = [py "😊"]
  ∧ _extract_valid_emojis pictograph_list
      (λ s, if decide (s = py "🐶") then Raise (HostError 7) else Ok true)
      remove_dups the_plugin (py "😊🐶") = [].
Proof. repeat split; vm_compute; reflexivity. Qed.

(** ** Request Handler *)

(** C4.  For every event, the Request Handler given a list of exactly two
    identical emoji answers with the cannot-be-identical text and issues no
    network probe. *)
Theorem identical_pair_rejected self event (emoji1 : pystr) net :
  run (_process_mix_request self event [emoji1; emoji1]) net
  = (Ok (plain_result event must_differ), []).
Proof.
  unfold _process_mix_request. by rewrite decide_True.
Qed.

Lemma process_not_two self event (emojis : list pystr) net :
  length emojis ≠ 2%nat →
  run (_process_mix_request self event emojis) net
  = (Ok (plain_result event usage_hint), []).
Proof. by destruct emojis as [|? [|? [|? ?]]]. Qed.

(** With two distinct emoji the handler runs the resolver, probes what it
    probes, and only turns its result into a reply. *)
Lemma process_distinct self event (emoji1 emoji2 : pystr) net :
  emoji1 ≠ emoji2 →
  run (_process_mix_request self event [emoji1; emoji2]) net =
  match run (_find_mixed_emoji_url self emoji1 emoji2) net with
  | (Ok mix_url, probes) =>
      (Ok (if negb (falsy mix_url)
           then image_result event (default [] mix_url)
           else plain_result event (not_found emoji1 emoji2)),
       probes)
  | (Raise e, probes) => (Raise e, probes)
  end.
Proof.
  intros Hne. unfold _process_mix_request. rewrite decide_False by done.
  rewrite run_bind.
  destruct (run (_find_mixed_emoji_url self emoji1 emoji2) net)
    as [[mix_url|e] probes]; [|done].
  destruct (negb (falsy mix_url)); by rewrite run_ret, app_nil_r.
Qed.

Section Handlers.

Variable emoji_list : pystr → result (list emoji_entry).
Variable is_emoji : pystr → result bool.
Variable set_order : list pystr → list pystr.

Local Abbreviation extract :=
  (_extract_valid_emojis emoji_list is_emoji set_order).
Local Abbreviation listener :=
  (handle_double_emoji_message emoji_list is_emoji set_order).
Local Abbreviation command :=
  (emoji_mix_handler emoji_list is_emoji set_order).

(** Above the threshold the listener returns at once. *)
Lemma listener_above_threshold self event net :
  (10 < length (strip (message_str event)))%nat →
  run (listener self event) net = (Ok tt, []).
Proof.
  intros Hlen. unfold handle_double_emoji_message.
  apply Nat.ltb_lt in Hlen. by rewrite Hlen.
Qed.

(** Within it, a text with two distinct extracted emoji is handed to the
    request handler, whose reply is dropped. *)
Lemma listener_within_threshold self event (emoji1 emoji2 : pystr) net :
  (length (strip (message_str event)) ≤ 10)%nat →
  extract self (strip (message_str event)) = [emoji1; emoji2] →
  emoji1 ≠ emoji2 →
  run (listener self event) net
  = ((λ _, tt) <$> (run (_process_mix_request self event [emoji1; emoji2]) net).1,
     (run (_process_mix_request self event [emoji1; emoji2]) net).2)
  ∧ (run (listener self event) net).2
    = (run (_find_mixed_emoji_url self emoji1 emoji2) net).2.
Proof.
  intros Hlen Hextract Hne. unfold handle_double_emoji_message.
  apply Nat.ltb_ge in Hlen. rewrite Hlen, Hextract. cbn [length Nat.eqb].
  rewrite run_bind, process_distinct by done.
  destruct (run (_find_mixed_emoji_url self emoji1 emoji2) net)
    as [[mix_url|e] probes]; [|done].
  by rewrite run_ret, app_nil_r.
Qed.

(** C5.  The passive listener does nothing (no extraction, no probe, no
    reply) on a message whose text is exactly 11 characters long; on a
    message whose text is 10 characters long and holds two distinct valid
    emoji it runs the mixing flow: the request handler on that pair, hence the
    resolver's probes for it.  The text is the message as the listener
    measures it, stripped of surrounding white space. *)
Theorem passive_listener_length_boundary self :
  (∀ event net,
     length (strip (message_str event)) = 11%nat →
     run (listener self event) net = (Ok tt, []))
  ∧ (∀ event (emoji1 emoji2 : pystr) net,
       length (strip (message_str event)) = 10%nat →
       extract self (strip (message_str event)) = [emoji1; emoji2] →
       emoji1 ≠ emoji2 →
       run (listener self event) net
       = ((λ _, tt) <$> (run (_process_mix_request self event [emoji1; emoji2]) net).1,
          (run (_process_mix_request self event [emoji1; emoji2]) net).2)
       ∧ (run (listener self event) net).2
         = (run (_find_mixed_emoji_url self emoji1 emoji2) net).2).
Proof.
  split.
  - intros event net Hlen. apply listener_above_threshold. lia.
  - intros event emoji1 emoji2 net Hlen Hextract Hne.
    apply listener_within_threshold; [lia | done | done].
Qed.

Hypothesis lawful : set_order_lawful set_order.

(** When every match the detector reports on the message text is one and the
    same emoji, the command flow answers with the usage hint and probes
    nothing: the extractor collects the matches into a set, so at most one
    emoji reaches the request handler. *)
Lemma command_one_emoji_repeated self event (e : pystr) net :
  (∀ emoji_entries entry,
     emoji_list (strip (message_str event)) = Ok emoji_entries →
     entry ∈ emoji_entries → emoji entry = e) →
  run (command self event) net = (Ok (plain_result event usage_hint), []).
Proof using lawful.
  intros Hmatches. unfold emoji_mix_handler.
  apply process_not_two.
  assert (Hshort : (length (extract self (strip (message_str event))) ≤ 1)%nat);
    [|lia].
  apply (short_of_one_value e).
  - by apply extract_NoDup.
  - intros x Hx.
    destruct (extract_elem emoji_list is_emoji set_order lawful self _ x Hx)
      as (entries & entry & Hentries & Hin & <- & _).
    by eapply Hmatches.
Qed.

(** C1, as the code has it.  On the input text of twice the same emoji 😊,
    every match the detector reports being that emoji, the command flow
    answers with the usage hint in plain text and issues no network probe. *)
Theorem command_same_emoji_twice self event net :
  message_str event = py "😊😊" →
  (∀ emoji_entries entry,
     emoji_list (py "😊😊") = Ok emoji_entries → entry ∈ emoji_entries →
     emoji entry = py "😊") →
  run (command self event) net = (Ok (plain_result event usage_hint), []).
Proof using lawful.
  intros Hmsg Hmatches. apply (command_one_emoji_repeated self event (py "😊")).
  rewrite Hmsg. exact Hmatches.
Qed.

(** On the initialized plugin, a short message whose valid matches are two
    distinct emoji reaches the resolver with that pair, in the order the set
    is iterated. *)
Lemma listener_mixes_valid_pair self event emoji_entries added
    (e1 e2 : pystr) net :
  __init__ = Ok self →
  (length (strip (message_str event)) ≤ 10)%nat →
  emoji_list (strip (message_str event)) = Ok emoji_entries →
  collect_valid is_emoji emoji_entries = Ok added →
  e1 ≠ e2 → (∀ x, x ∈ added ↔ x = e1 ∨ x = e2) →
  (run (listener self event) net).2
    = (run (_find_mixed_emoji_url self e1 e2) net).2
  ∨ (run (listener self event) net).2
    = (run (_find_mixed_emoji_url self e2 e1) net).2.
Proof using lawful.
  intros Hinit Hlen Hlist Hcollect Hne Hadded.
  assert (Hmax : config self !! "max_emoji_length" = Some (VInt 2)).
  { rewrite initialization_default in Hinit. by injection Hinit as <-. }
  destruct (extract_pair emoji_list is_emoji set_order lawful self _ _ _
              e1 e2 2 Hmax ltac:(lia) Hlist Hcollect Hne Hadded) as [Hx|Hx];
    [left | right]; by apply listener_within_threshold.
Qed.

End Handlers.

Lemma passive_listener_length_boundary_witness :
  run (handle_double_emoji_message pictograph_list pictograph_is_emoji
         remove_dups the_plugin (message "😊🐶abcdefghi"))
    all_found = (Ok tt, [])
  ∧ (run (handle_double_emoji_message pictograph_list pictograph_is_emoji
            remove_dups the_plugin (message "😊🐶abcdefgh"))
       all_found).2
    = (run (_find_mixed_emoji_url the_plugin (py "😊") (py "🐶")) all_found).2.
Proof.
  destruct (passive_listener_length_boundary
              pictograph_list pictograph_is_emoji remove_dups the_plugin)
    as [H11 H10].
  split.
  - apply H11. reflexivity.
  - apply (H10 (message "😊🐶abcdefgh") (py "😊") (py "🐶")).
    + reflexivity.
    + vm_compute. reflexivity.
    + discriminate.
Defined.

(** The two sides of the boundary, run: eleven characters leave the network
    alone, ten characters reach the resolver, whose first probe is the
    primary candidate of the first date code. *)
Example passive_listener_runs :
  run (handle_double_emoji_message pictograph_list pictograph_is_emoji
         remove_dups the_plugin (message "😊🐶abcdefghi"))
    all_found = (Ok tt, [])
  ∧ run (handle_double_emoji_message pictograph_list pictograph_is_emoji
           remove_dups the_plugin (message "😊🐶abcdefgh"))
      all_found
    = (Ok tt, [kitchen_url (py "20240204") (py "u1f60a") (py "u1f436")]).
Proof. split; vm_compute; reflexivity. Qed.

Lemma pictograph_matches_grinning_twice emoji_entries entry :
  pictograph_list (py "😊😊") = Ok emoji_entries → entry ∈ emoji_entries →
  emoji entry = py "😊".
Proof.
  intros [= <-] Hin. vm_compute in Hin.
  by repeat (apply elem_of_cons in Hin as [->|Hin]);
    [| |apply elem_of_nil in Hin].
Qed.

Lemma command_same_emoji_twice_witness :
  run (emoji_mix_handler pictograph_list pictograph_is_emoji remove_dups
         the_plugin (message "😊😊")) only_swapped_20241023
  = (Ok (plain_result (message "😊😊") usage_hint), []).
Proof.
  apply (command_same_emoji_twice
           pictograph_list pictograph_is_emoji remove_dups remove_dups_lawful
           the_plugin (message "😊😊") only_swapped_20241023).
  - reflexivity.
  - exact pictograph_matches_grinning_twice.
Defined.

(** On the text of twice 😊 the command flow does not give the
    cannot-be-identical reply: it gives the usage hint, a different text. *)
Lemma command_same_emoji_twice_not_must_differ :
  run (emoji_mix_handler pictograph_list pictograph_is_emoji remove_dups
         the_plugin (message "😊😊")) all_found
  = (Ok (PlainResult usage_hint), [])
  ∧ PlainResult usage_hint ≠ PlainResult must_differ.
Proof. split; [vm_compute; reflexivity | vm_compute; discriminate]. Qed.

(** The command flow on two distinct emoji, for comparison: the image reply
    carries the URL the resolver found. *)
Example command_runs :
  (run (emoji_mix_handler pictograph_list pictograph_is_emoji remove_dups
          the_plugin (message "😊🐶")) only_swapped_20241023).1
  = Ok (ImageResult (kitchen_url (py "20241023") (py "u1f436") (py "u1f60a")))
  ∧ run (emoji_mix_handler pictograph_list pictograph_is_emoji remove_dups
           the_plugin (message "hello")) all_found
    = (Ok (PlainResult usage_hint), []).
Proof. split; vm_compute; reflexivity. Qed.

(** * Further properties *)

(** ** Hex Encoder: the shape of a code and what it determines *)

Lemma utf8_decode_ascii (bs : list N) :
  Forall (λ b, b < 0x80) bs → utf8_decode bs = bs.
Proof.
  induction 1 as [|b rest Hb _ IH]; [done|].
  cbn [utf8_decode]. apply N.ltb_lt in Hb. by rewrite Hb, IH.
Qed.

Lemma hexdigit_ascii c : is_hexdigit c = true → c < 0x80.
Proof.
  unfold is_hexdigit. rewrite orb_true_iff, !andb_true_iff, !N.leb_le. lia.
Qed.

Lemma hexdigit_not_hyphen c : is_hexdigit c = true → c ≠ 0x2D.
Proof.
  unfold is_hexdigit. rewrite orb_true_iff, !andb_true_iff, !N.leb_le. lia.
Qed.

(** The digits [HexString] writes for a positive number, four bits at a
    time, in front of what follows. *)
Fixpoint of_pos_bytes (p : positive) (rest : string) {struct p} :
  ∃ digits, bytes_of (HexString.Raw.of_pos p rest) = digits ++ bytes_of rest
            ∧ digits ≠ [] ∧ Forall (λ c, is_hexdigit c = true) digits.
Proof.
  do 4 try destruct p as [p|p|];
    first
      [ eexists [_]; split; [reflexivity|];
        split; [discriminate | by repeat constructor]
      | cbn [HexString.Raw.of_pos];
        match goal with
        | |- context [HexString.Raw.of_pos p ?r] =>
            destruct (of_pos_bytes p r) as (ds & -> & Hne & Hall)
        end;
        eexists (ds ++ [_]); split; [by rewrite <- app_assoc|];
        split; [by destruct ds
               | apply Forall_app; split; [done|by repeat constructor]] ].
Qed.

Lemma hex_digits n :
  hex n ≠ [] ∧ Forall (λ c, is_hexdigit c = true) (hex n)
  ∧ hex n = bytes_of (match n with
                      | N0 => "0"
                      | Npos p => HexString.Raw.of_pos p ""
                      end).
Proof.
  assert (Hb : ∃ ds, bytes_of (match n with
                               | N0 => "0"
                               | Npos p => HexString.Raw.of_pos p ""
                               end) = ds
                     ∧ ds ≠ [] ∧ Forall (λ c, is_hexdigit c = true) ds).
  { destruct n as [|p].
    - exists [0x30]. by repeat constructor.
    - destruct (of_pos_bytes p "") as (ds & Hds & Hne & Hall).
      exists ds. by rewrite Hds, app_nil_r. }
  destruct Hb as (ds & Hds & Hne & Hall).
  assert (Hhex : hex n = ds).
  { unfold hex, py. rewrite Hds. apply utf8_decode_ascii.
    eapply Forall_impl; [exact Hall|]. apply hexdigit_ascii. }
  by rewrite Hhex, Hds.
Qed.

Lemma bytes_of_inj s1 s2 : bytes_of s1 = bytes_of s2 → s1 = s2.
Proof.
  unfold bytes_of. intros H.
  rewrite <- (String.string_of_list_ascii_of_string s1),
          <- (String.string_of_list_ascii_of_string s2).
  f_equal. revert H. generalize (String.list_ascii_of_string s1).
  generalize (String.list_ascii_of_string s2).
  intros l2 l1. revert l2. induction l1 as [|a l1 IH]; intros [|b l2] H;
    try done.
  injection H as Hab Hl. f_equal; [|by apply IH].
  by rewrite <- (Ascii.ascii_N_embedding a), Hab, Ascii.ascii_N_embedding.
Qed.

(** Reading the digits back gives the number: no two code points share their
    hexadecimal rendering. *)
Lemma hex_inj n m : hex n = hex m → n = m.
Proof.
  intros H. destruct (hex_digits n) as (_ & _ & Hn).
  destruct (hex_digits m) as (_ & _ & Hm).
  rewrite Hn, Hm in H. apply bytes_of_inj in H.
  apply (f_equal (λ s, HexString.Raw.to_N s 0)) in H.
  cbv beta in H.
  destruct n as [|p], m as [|q]; rewrite ?HexString.Raw.to_N_of_pos in H.
  all: cbn in H; lia.
Qed.

Lemma join_cons (sep p : pystr) (ps : list pystr) :
  join sep (p :: ps) = p ++ match ps with [] => [] | _ => sep ++ join sep ps end.
Proof. destruct ps; simpl; [by rewrite app_nil_r | done]. Qed.

(** Two strings free of the separator, each followed by nothing or by a
    separator, are cut at the same place. *)
Lemma cut_at_separator (sep : N) (x y t t' : pystr) :
  Forall (λ c, c ≠ sep) x → Forall (λ c, c ≠ sep) y →
  (t = [] ∨ ∃ r, t = sep :: r) → (t' = [] ∨ ∃ r, t' = sep :: r) →
  x ++ t = y ++ t' → x = y ∧ t = t'.
Proof.
  intros Hx. revert y. induction Hx as [|a x Ha Hx IH]; intros y Hy Ht Ht' Heq.
  - destruct Hy as [|b y Hb Hy]; [done|]. simpl in Heq.
    destruct Ht as [->|[r ->]]; [done|]. by injection Heq as -> _.
  - destruct Hy as [|b y Hb Hy]; simpl in Heq.
    + destruct Ht' as [->|[r ->]]; [done|]. by injection Heq as -> _.
    + injection Heq as -> Heq. destruct (IH y Hy Ht Ht' Heq) as [-> ->]. done.
Qed.

Lemma group_no_hyphen c : Forall (λ d, d ≠ 0x2D) (py "u" ++ hex c).
Proof.
  apply Forall_app. split; [by repeat constructor|].
  destruct (hex_digits c) as (_ & Hall & _).
  eapply Forall_impl; [exact Hall|]. apply hexdigit_not_hyphen.
Qed.

Lemma join_groups_inj (l l' : pystr) :
  join (py "-") (map (λ c, py "u" ++ hex c) l)
  = join (py "-") (map (λ c, py "u" ++ hex c) l') →
  l = l'.
Proof.
  revert l'. induction l as [|c l IH]; intros [|c' l'] Heq; try done.
  - cbn [map] in Heq. rewrite join_cons in Heq. done.
  - cbn [map] in Heq. rewrite join_cons in Heq. done.
  - cbn [map] in Heq. rewrite !join_cons in Heq.
    apply cut_at_separator with (sep := 0x2D) in Heq as [Hc Ht];
      [ | apply group_no_hyphen | apply group_no_hyphen
        | destruct l; [by left | right; by eexists]
        | destruct l'; [by left | right; by eexists] ].
    apply app_inv_head in Hc. apply hex_inj in Hc as ->. f_equal.
    destruct l as [|d l], l' as [|d' l']; try done.
    apply IH. by injection Ht.
Qed.

(** Two emoji strings get the same hex code exactly when they agree once
    their variation selectors are removed: emoji that differ otherwise never
    share a catalogue key. *)
Theorem hex_code_determines_emoji (emoji1 emoji2 : pystr) :
  _get_emoji_hex_code emoji1 = _get_emoji_hex_code emoji2
  ↔ without_selectors emoji1 = without_selectors emoji2.
Proof.
  rewrite !hex_code_is_some. unfold without_selectors. split.
  - intros Heq. apply (inj Some) in Heq. by apply join_groups_inj.
  - by intros ->.
Qed.

(** The encoder fails (its result is falsy) exactly on the strings made of
    variation selectors only, the empty string among them. *)
Theorem hex_code_falsy_iff (emoji_char : pystr) :
  falsy (_get_emoji_hex_code emoji_char) = true
  ↔ Forall (λ c, c ∈ variation_selectors) emoji_char.
Proof.
  split.
  - intros Hfalsy. apply Forall_forall. intros c Hc.
    destruct (decide (c ∈ variation_selectors)) as [|Hn]; [done|].
    by rewrite (hex_code_truthy emoji_char c Hc Hn) in Hfalsy.
  - intros Hall. rewrite hex_code_is_some. by rewrite filter_selectors.
Qed.

Lemma filter_hyphen_free (s : pystr) :
  Forall (λ d, d ≠ 0x2D) s → filter (λ d, d = 0x2D) s = [].
Proof.
  induction 1 as [|d s Hd _ IH]; [done|]. by rewrite filter_cons_False.
Qed.

Lemma join_groups_hyphens (l : pystr) :
  length (filter (λ d, d = 0x2D)
            (join (py "-") (map (λ c, py "u" ++ hex c) l)))
  = pred (length l).
Proof.
  induction l as [|c l IH]; [done|].
  cbn [map]. rewrite join_cons, filter_app.
  rewrite (filter_hyphen_free _ (group_no_hyphen c)).
  destruct l as [|d l]; [done|].
  destruct (map (λ c, py "u" ++ hex c) (d :: l)) as [|p ps] eqn:Hps; [done|].
  rewrite app_nil_l, filter_app, length_app, IH. reflexivity.
Qed.

(** The hex code has one group per code point that is kept, hence one hyphen
    fewer: a flag of two regional indicators has two groups. *)
Theorem hex_code_hyphens (emoji_char code : pystr) :
  _get_emoji_hex_code emoji_char = Some code →
  length (filter (λ d, d = 0x2D) code)
  = pred (length (without_selectors emoji_char)).
Proof.
  rewrite hex_code_is_some. intros Heq. apply (inj Some) in Heq.
  rewrite <- Heq. apply join_groups_hyphens.
Qed.

Lemma hex_code_hyphens_witness :
  length (filter (λ d, d = 0x2D) (py "u1f1e8-u1f1f3"))
  = pred (length (without_selectors (py "🇨🇳"))).
Proof.
  apply (hex_code_hyphens (py "🇨🇳") (py "u1f1e8-u1f1f3")).
  reflexivity.
Defined.

(** ** Composite URL Resolver: bounds, symmetry and what it observes *)

Lemma probe_candidates_probes_le net urls :
  (length (run (probe_candidates urls) net).2 ≤ length urls)%nat.
Proof.
  destruct (probe_candidates_ordered net urls) as ([hit|] & probes & -> & Hs);
    simpl in *.
  - destruct Hs as (before & after & -> & -> & _). rewrite !length_app. simpl. lia.
  - by destruct Hs as [-> _].
Qed.

Lemma url_candidates_length self (emoji1 emoji2 h1 h2 date_code : pystr) l :
  url_candidates self emoji1 emoji2 h1 h2 date_code = Ok l →
  (length l ≤ 2)%nat.
Proof.
  unfold url_candidates.
  destruct (getitem (config self) "base_url_template") as [t|]; [|done].
  rewrite result_bind_ok.
  destruct (format_url t date_code h1 h2) as [primary|]; [|done].
  rewrite result_bind_ok. case_decide.
  - rewrite result_bind_ok.
    destruct (format_url t date_code h2 h1) as [swapped|]; [|done].
    rewrite result_bind_ok. by intros [= <-].
  - intros [= <-]. simpl. lia.
Qed.

Lemma scan_date_codes_probes_le self (emoji1 emoji2 h1 h2 : pystr)
    (date_codes : list pystr) net :
  (length (run (scan_date_codes self emoji1 emoji2 h1 h2 date_codes) net).2
   ≤ 2 * length date_codes)%nat.
Proof.
  induction date_codes as [|date_code rest IH]; [simpl; lia|].
  cbn [scan_date_codes]. rewrite run_bind, run_lift.
  destruct (url_candidates self emoji1 emoji2 h1 h2 date_code)
    as [candidates|e] eqn:Hc; [|simpl; lia].
  apply url_candidates_length in Hc. cbn [fst snd]. rewrite app_nil_l.
  rewrite run_bind.
  pose proof (probe_candidates_probes_le net candidates) as Hp.
  destruct (run (probe_candidates candidates) net) as [[[hit|]|e] probes];
    cbn [fst snd] in *.
  - rewrite run_ret, app_nil_r. simpl. lia.
  - rewrite length_app. simpl length. lia.
  - simpl. lia.
Qed.

(** Whatever the two emoji and the network, the resolver issues at most two
    probes per configured date code (72 with the built-in list). *)
Theorem resolver_probe_bound self (emoji1 emoji2 : pystr)
    (date_codes : list pystr) net :
  config self !! "date_codes" = Some (VList date_codes) →
  (length (run (_find_mixed_emoji_url self emoji1 emoji2) net).2
   ≤ 2 * length date_codes)%nat.
Proof.
  intros Hdates. unfold _find_mixed_emoji_url.
  destruct (falsy _ || falsy _); [rewrite run_ret; cbn [snd length]; lia|].
  rewrite run_bind, run_lift.
  destruct (getitem (config self) "request_timeout") as [timeout|e];
    [|cbn [snd length]; lia].
  cbn [fst snd]. rewrite app_nil_l.
  unfold getitem. rewrite Hdates, result_bind_ok, run_bind, run_lift.
  cbn [iterate fst snd]. rewrite app_nil_l.
  apply scan_date_codes_probes_le.
Qed.

Lemma resolver_probe_bound_witness :
  (length (run (_find_mixed_emoji_url the_plugin (py "😊") (py "🐶")) all_500).2
   ≤ 2 * length default_date_codes)%nat.
Proof.
  apply (resolver_probe_bound the_plugin (py "😊") (py "🐶")
           default_date_codes all_500).
  vm_compute. reflexivity.
Defined.

Lemma run_bind_same {A B} (m : M A) (f : A → M B) net net' :
  run m net = run m net' → (∀ a, run (f a) net = run (f a) net') →
  run (m ≫= f) net = run (m ≫= f) net'.
Proof.
  intros Hm Hf. rewrite !run_bind, Hm.
  destruct (run m net') as [[a|e] probes]; [by rewrite Hf | done].
Qed.

Lemma probe_candidates_same_hits net net' urls :
  same_hits net net' →
  run (probe_candidates urls) net = run (probe_candidates urls) net'.
Proof.
  intros Hsame. induction urls as [|url rest IH]; [done|].
  rewrite !probe_candidates_step, IH.
  destruct (decide (net url = Response 200)) as [H|H].
  - rewrite decide_True; [done | by apply Hsame].
  - rewrite decide_False; [done | by rewrite <- (Hsame url)].
Qed.

Lemma scan_date_codes_same_hits self (emoji1 emoji2 h1 h2 : pystr)
    (date_codes : list pystr) net net' :
  same_hits net net' →
  run (scan_date_codes self emoji1 emoji2 h1 h2 date_codes) net
  = run (scan_date_codes self emoji1 emoji2 h1 h2 date_codes) net'.
Proof.
  intros Hsame. induction date_codes as [|date_code rest IH]; [done|].
  cbn [scan_date_codes]. rewrite !run_bind, !run_lift.
  destruct (url_candidates self emoji1 emoji2 h1 h2 date_code)
    as [candidates|e]; [|done].
  cbn [fst snd]. rewrite !run_bind.
  rewrite (probe_candidates_same_hits net net' candidates Hsame).
  destruct (run (probe_candidates candidates) net') as [[[hit|]|e] probes];
    [done | by rewrite IH | done].
Qed.

(** The resolver tells a 200 from everything else and nothing more: on two
    networks where the same URLs answer 200 it probes the same URLs and
    returns the same result.  A request error, a 404 and a 500 are one and
    the same miss. *)
Theorem resolver_only_sees_hits self (emoji1 emoji2 : pystr) net net' :
  same_hits net net' →
  run (_find_mixed_emoji_url self emoji1 emoji2) net
  = run (_find_mixed_emoji_url self emoji1 emoji2) net'.
Proof.
  intros Hsame. unfold _find_mixed_emoji_url.
  destruct (falsy _ || falsy _); [done|].
  apply run_bind_same; [done|]. intros _.
  apply run_bind_same; [done|]. intros dates.
  by apply scan_date_codes_same_hits.
Qed.

Lemma resolver_only_sees_hits_witness :
  run (_find_mixed_emoji_url the_plugin (py "😊") (py "🐶")) all_errors
  = run (_find_mixed_emoji_url the_plugin (py "😊") (py "🐶")) all_500.
Proof.
  apply (resolver_only_sees_hits the_plugin (py "😊") (py "🐶")
           all_errors all_500).
  intros url. split; discriminate.
Defined.

Section ResolverRuns.

Variables (self : EmojiMixPlugin) (date_codes : list pystr).
Variables (template : pystr) (timeout : value).
Variable url : pystr → pystr → pystr → pystr.
Variable net : network.

Hypothesis config_timeout : config self !! "request_timeout" = Some timeout.
Hypothesis config_dates :
  config self !! "date_codes" = Some (VList date_codes).
Hypothesis config_template :
  config self !! "base_url_template" = Some (VStr template).
Hypothesis template_renders :
  ∀ date_code a b,
    format_url (VStr template) date_code a b = Ok (url date_code a b).

(** Past the encoding test and the configuration lookups, the resolver is
    the scan of the date codes. *)
Lemma resolver_run_scan (emoji1 emoji2 hex1 hex2 : pystr) :
  _get_emoji_hex_code emoji1 = Some hex1 → hex1 ≠ [] →
  _get_emoji_hex_code emoji2 = Some hex2 → hex2 ≠ [] →
  run (_find_mixed_emoji_url self emoji1 emoji2) net
  = run (scan_date_codes self emoji1 emoji2 hex1 hex2 date_codes) net.
Proof using config_timeout config_dates.
  intros Hhex1 Hne1 Hhex2 Hne2.
  unfold _find_mixed_emoji_url. rewrite Hhex1, Hhex2.
  rewrite !falsy_some_nonempty by done. cbn [orb default].
  unfold getitem. rewrite config_timeout, config_dates.
  rewrite run_bind, run_lift. cbn [fst snd].
  rewrite run_bind, result_bind_ok, run_lift. cbn [iterate fst snd app].
  by destruct (run _ net).
Qed.

Lemma resolver_run_flat (emoji1 emoji2 hex1 hex2 : pystr) :
  emoji1 ≠ emoji2 →
  _get_emoji_hex_code emoji1 = Some hex1 → hex1 ≠ [] →
  _get_emoji_hex_code emoji2 = Some hex2 → hex2 ≠ [] →
  run (_find_mixed_emoji_url self emoji1 emoji2) net
  = run (probe_candidates (date_codes ≫= both_orders url hex1 hex2)) net.
Proof using config_timeout config_dates config_template template_renders.
  intros Hne Hhex1 Hne1 Hhex2 Hne2.
  rewrite (resolver_run_scan emoji1 emoji2 hex1 hex2) by done.
  by apply (scan_date_codes_flat net self emoji1 emoji2 hex1 hex2 template url).
Qed.

(** A search finds nothing exactly when no candidate answers 200. *)
Lemma probe_candidates_none urls :
  (run (probe_candidates urls) net).1 = Ok None
  ↔ Forall (λ u, net u ≠ Response 200) urls.
Proof.
  destruct (probe_candidates_ordered net urls) as ([hit|] & probes & -> & Hs);
    simpl in *.
  - destruct Hs as (before & after & -> & _ & Hhit & _). split; [done|].
    intros Hall. apply Forall_app in Hall as [_ Hall].
    by apply Forall_cons in Hall as [? _].
  - by destruct Hs as [_ Hall].
Qed.

(** Whether a composite is found does not depend on the order in which the
    two emoji are given (the order in which the extractor's set is iterated):
    both orders probe the same candidates, and there is a hit for one exactly
    when there is a hit for the other. *)
Theorem resolver_found_either_order (emoji1 emoji2 hex1 hex2 : pystr) :
  emoji1 ≠ emoji2 →
  _get_emoji_hex_code emoji1 = Some hex1 → hex1 ≠ [] →
  _get_emoji_hex_code emoji2 = Some hex2 → hex2 ≠ [] →
  (run (_find_mixed_emoji_url self emoji1 emoji2) net).1 = Ok None
  ↔ (run (_find_mixed_emoji_url self emoji2 emoji1) net).1 = Ok None.
Proof using config_timeout config_dates config_template template_renders.
  intros Hne Hhex1 Hne1 Hhex2 Hne2.
  rewrite (resolver_run_flat emoji1 emoji2 hex1 hex2) by done.
  rewrite (resolver_run_flat emoji2 emoji1 hex2 hex1) by done.
  rewrite !probe_candidates_none, !Forall_forall.
  assert (Hswap : ∀ a b u,
    u ∈ date_codes ≫= both_orders url a b →
    u ∈ date_codes ≫= both_orders url b a).
  { intros a b u. rewrite !list_elem_of_bind.
    intros (d & Hu & Hd). exists d. split; [|done].
    unfold both_orders in *.
    apply elem_of_cons in Hu as [->|Hu]; [by right; left|].
    apply list_elem_of_singleton in Hu as ->. by left. }
  split; intros Hall u Hu; apply Hall; by apply Hswap.
Qed.



End ResolverRuns.

Lemma resolver_found_either_order_witness :
  (run (_find_mixed_emoji_url the_plugin (py "😊") (py "🐶"))
     only_swapped_20241023).1 = Ok None
  ↔ (run (_find_mixed_emoji_url the_plugin (py "🐶") (py "😊"))
       only_swapped_20241023).1 = Ok None.
Proof.
  apply (resolver_found_either_order the_plugin default_date_codes
           (py "https://www.gstatic.com/android/keyboard/emojikitchen/{date_code}/{hex1}/{hex1}_{hex2}.png")
           (VFloat (3 # 1)) kitchen_url only_swapped_20241023
           ltac:(vm_compute; reflexivity) ltac:(vm_compute; reflexivity)
           ltac:(vm_compute; reflexivity) default_template_renders
           (py "😊") (py "🐶") (py "u1f60a") (py "u1f436")).
  - vm_compute. discriminate.
  - reflexivity.
  - vm_compute. discriminate.
  - reflexivity.
  - vm_compute. discriminate.
Defined.


(** ** Configuration: what validation reports and what it leaves unchecked *)

(** The [ValueError] names the first required key that is missing, in the
    order the keys are checked. *)
Theorem validation_reports_first_missing cfg (before after : list string)
    (key : string) :
  required_keys = before ++ key :: after →
  Forall (λ k, is_Some (cfg !! k)) before →
  cfg !! key = None →
  init_with cfg = Raise (ValueError (py "配置缺失关键参数: " ++ py key)).
Proof.
  intros Hkeys Hbefore Hkey. unfold init_with, _validate_config; cbn [config].
  rewrite Hkeys. clear Hkeys.
  induction Hbefore as [|k rest [v Hk] _ IH]; simpl.
  - by rewrite Hkey.
  - rewrite Hk. exact IH.
Qed.

Lemma validation_reports_first_missing_witness :
  init_with (delete "date_codes" (delete "base_url_template" default_config))
  = Raise (ValueError (py "配置缺失关键参数: " ++ py "base_url_template")).
Proof.
  apply (validation_reports_first_missing _ ["twemoji_cdn"%string]
           ["date_codes"%string] "base_url_template").
  - reflexivity.
  - repeat constructor. vm_compute. eauto.
  - vm_compute. reflexivity.
Defined.

(** With every required key present, a date-code entry that is not a list is
    reported as [TypeError]. *)
Theorem validation_reports_wrong_type cfg (v : value) :
  Forall (λ k, is_Some (cfg !! k)) required_keys →
  cfg !! "date_codes" = Some v → is_list v = false →
  init_with cfg = Raise (TypeError (py "date_codes必须为列表类型")).
Proof.
  intros Hkeys Hv Hlist. unfold init_with, _validate_config; cbn [config].
  apply check_required_ok in Hkeys. rewrite Hkeys, result_bind_ok.
  unfold getitem. rewrite Hv, result_bind_ok. by rewrite Hlist.
Qed.

Lemma validation_reports_wrong_type_witness :
  init_with (<["date_codes" := VInt 20240204]> default_config)
  = Raise (TypeError (py "date_codes必须为列表类型")).
Proof.
  apply (validation_reports_wrong_type _ (VInt 20240204)).
  - repeat constructor; vm_compute; eauto.
  - vm_compute. reflexivity.
  - reflexivity.
Defined.

(** Validation does not look at [request_timeout]: a configuration that
    passes it but lacks that key makes the resolver raise [KeyError] on every
    pair it can encode, before any probe. *)
Theorem unvalidated_timeout_raises cfg self (emoji1 emoji2 : pystr) net :
  init_with cfg = Ok self →
  cfg !! "request_timeout" = None →
  falsy (_get_emoji_hex_code emoji1) = false →
  falsy (_get_emoji_hex_code emoji2) = false →
  run (_find_mixed_emoji_url self emoji1 emoji2) net
  = (Raise (KeyError "request_timeout"), []).
Proof.
  intros Hinit Hkey H1 H2. pose proof (init_with_cases cfg) as Hc.
  rewrite Hinit in Hc. destruct Hc as (Hcfg & _).
  unfold _find_mixed_emoji_url. rewrite H1, H2. cbn [orb].
  rewrite run_bind, run_lift. unfold getitem. by rewrite Hcfg, Hkey.
Qed.

Lemma unvalidated_timeout_raises_witness :
  run (_find_mixed_emoji_url
         {| config := delete "request_timeout" default_config |}
         (py "😊") (py "🐶")) all_found
  = (Raise (KeyError "request_timeout"), []).
Proof.
  apply (unvalidated_timeout_raises (delete "request_timeout" default_config)
           {| config := delete "request_timeout" default_config |}
           (py "😊") (py "🐶") all_found).
  - vm_compute. reflexivity.
  - vm_compute. reflexivity.
  - reflexivity.
  - reflexivity.
Defined.

(** ** Single-emoji download *)

(** The download requests at most one URL; it returns a body only if that
    one request answered 200, and then the body of that answer; when the CDN
    base or the timeout is missing from the configuration it returns [None]
    without any request. *)
Theorem download_emoji_outcome (str_of : value → pystr) self
    (emoji_char : pystr) (web : cdn) :
  (length (download_emoji str_of self emoji_char web).2 ≤ 1)%nat
  ∧ (∀ content,
       (download_emoji str_of self emoji_char web).1 = Some content →
       ∃ url, (download_emoji str_of self emoji_char web).2 = [url]
              ∧ web url = GetResponse 200 content)
  ∧ (config self !! "twemoji_cdn" = None
     ∨ config self !! "request_timeout" = None →
     download_emoji str_of self emoji_char web = (None, [])).
Proof.
  unfold download_emoji. repeat split.
  - destruct (download_url str_of self emoji_char) as [url|]; [|simpl; lia].
    destruct (web url) as [code content|]; [|simpl; lia].
    destruct (code =? 200)%Z; simpl; lia.
  - intros content.
    destruct (download_url str_of self emoji_char) as [url|]; [|done].
    destruct (web url) as [code body|] eqn:Hweb; [|done].
    destruct (code =? 200)%Z eqn:Hcode; [|done].
    apply Z.eqb_eq in Hcode as ->. intros [= <-]. by exists url.
  - unfold download_url, getitem.
    intros [Hk|Hk].
    + by rewrite Hk.
    + destruct (config self !! "twemoji_cdn"); [|done].
      by rewrite result_bind_ok, Hk.
Qed.

Example download_runs :
  download_emoji (λ _, []) the_plugin (py "❤️")
    (λ _, GetResponse 200 [Byte.x3c; Byte.x73])
  = (Some [Byte.x3c; Byte.x73],
     [py "https://cdn.jsdelivr.net/npm/twemoji@latest/assets/svg/2764-fe0f.svg"]).
Proof. vm_compute. reflexivity. Qed.

(** ** Emoji Extractor: what comes back, and how many *)

Section ExtractorMore.

Variable emoji_list : pystr → result (list emoji_entry).
Variable is_emoji : pystr → result bool.
Variable set_order : list pystr → list pystr.
Hypothesis lawful : set_order_lawful set_order.

Local Abbreviation extract :=
  (_extract_valid_emojis emoji_list is_emoji set_order).
Local Abbreviation command :=
  (emoji_mix_handler emoji_list is_emoji set_order).

(** Every string the extractor returns is the emoji of a match the detector
    reported on that text and that passed the validity check. *)
Theorem extractor_returns_validated_matches self text (x : pystr) :
  x ∈ _extract_valid_emojis emoji_list is_emoji set_order self text →
  ∃ emoji_entries entry,
    emoji_list text = Ok emoji_entries ∧ entry ∈ emoji_entries
    ∧ emoji entry = x ∧ is_emoji x = Ok true.
Proof using lawful. apply extract_elem, lawful. Qed.

Lemma set_order_length added :
  length (set_order added) = length (remove_dups added).
Proof using lawful.
  destruct (lawful added) as [Hnd Hel].
  apply Permutation_length, NoDup_Permutation;
    [done | apply NoDup_remove_dups|].
  intros x. by rewrite Hel, elem_of_remove_dups.
Qed.

(** On the plugin as initialized the extractor returns as many emoji as the
    text has distinct valid ones, up to two: a text with three or more
    distinct emoji is cut down to two of them, not rejected. *)
Theorem extractor_length_exact self text emoji_entries added :
  __init__ = Ok self →
  emoji_list text = Ok emoji_entries →
  collect_valid is_emoji emoji_entries = Ok added →
  length (extract self text) = (2 `min` length (remove_dups added))%nat.
Proof using lawful.
  intros Hinit Hlist Hcollect.
  assert (Hmax : config self !! "max_emoji_length" = Some (VInt 2)).
  { rewrite initialization_default in Hinit. by injection Hinit as <-. }
  assert (Hx : extract self text = take 2 (set_order added)).
  { by rewrite extract_unfold, Hlist, Hcollect, Hmax. }
  by rewrite Hx, length_take, set_order_length.
Qed.


(** A text on which the detector reports no match, or fails, gets the usage
    hint from the command flow, with no network probe. *)
Theorem command_without_emoji self event net :
  emoji_list (strip (message_str event)) = Ok []
  ∨ raises (emoji_list (strip (message_str event))) →
  run (command self event) net = (Ok (plain_result event usage_hint), []).
Proof using lawful.
  intros Hnone.
  apply (command_one_emoji_repeated emoji_list is_emoji set_order lawful
           self event []).
  intros entries entry Hlist Hin.
  destruct Hnone as [Hnone|Hraise].
  - rewrite Hnone in Hlist. injection Hlist as <-. by apply elem_of_nil in Hin.
  - by rewrite Hlist in Hraise.
Qed.

End ExtractorMore.

Lemma extractor_returns_validated_matches_witness :
  ∃ emoji_entries entry,
    pictograph_list (py "a😊🐶") = Ok emoji_entries ∧ entry ∈ emoji_entries
    ∧ emoji entry = py "🐶" ∧ pictograph_is_emoji (py "🐶") = Ok true.
Proof.
  apply (extractor_returns_validated_matches
           pictograph_list pictograph_is_emoji remove_dups remove_dups_lawful
           the_plugin (py "a😊🐶") (py "🐶")).
  replace (_extract_valid_emojis _ _ _ _ _) with [py "😊"; py "🐶"]
    by (vm_compute; reflexivity).
  right. left.
Defined.

Lemma extractor_length_exact_witness :
  length (_extract_valid_emojis pictograph_list pictograph_is_emoji remove_dups
            the_plugin (py "😊🐶🐱😊"))
  = (2 `min` length (remove_dups [py "😊"; py "🐶"; py "🐱"; py "😊"]))%nat.
Proof.
  apply (extractor_length_exact
           pictograph_list pictograph_is_emoji remove_dups remove_dups_lawful
           the_plugin (py "😊🐶🐱😊") (pictograph_matches 0 (py "😊🐶🐱😊"))
           [py "😊"; py "🐶"; py "🐱"; py "😊"]).
  - vm_compute. reflexivity.
  - reflexivity.
  - vm_compute. reflexivity.
Defined.


Lemma command_without_emoji_witness :
  run (emoji_mix_handler pictograph_list pictograph_is_emoji remove_dups
         the_plugin (message " hello ")) all_found
  = (Ok (plain_result (message " hello ") usage_hint), []).
Proof.
  apply (command_without_emoji
           pictograph_list pictograph_is_emoji remove_dups remove_dups_lawful
           the_plugin (message " hello ") all_found).
  left. reflexivity.
Defined.

(** ** Request Handler: the reply, and the two entry points side by side *)

Section Replies.

Variables (self : EmojiMixPlugin) (date_codes : list pystr).
Variables (template : pystr) (timeout : value).
Variable url : pystr → pystr → pystr → pystr.
Variable net : network.

Hypothesis config_timeout : config self !! "request_timeout" = Some timeout.
Hypothesis config_dates :
  config self !! "date_codes" = Some (VList date_codes).
Hypothesis config_template :
  config self !! "base_url_template" = Some (VStr template).
Hypothesis template_renders :
  ∀ date_code a b,
    format_url (VStr template) date_code a b = Ok (url date_code a b).
Hypothesis url_nonempty : ∀ date_code a b, url date_code a b ≠ [].


End Replies.



Section EntryPoints.

Variable emoji_list : pystr → result (list emoji_entry).
Variable is_emoji : pystr → result bool.
Variable set_order : list pystr → list pystr.

Local Abbreviation extract :=
  (_extract_valid_emojis emoji_list is_emoji set_order).
Local Abbreviation listener :=
  (handle_double_emoji_message emoji_list is_emoji set_order).
Local Abbreviation command :=
  (emoji_mix_handler emoji_list is_emoji set_order).

(** The passive listener stays silent, probing nothing, on every message
    longer than 10 characters and on every message from which the extractor
    does not return exactly two emoji. *)
Theorem passive_listener_silent self event net :
  (10 < length (strip (message_str event)))%nat
  ∨ length (extract self (strip (message_str event))) ≠ 2%nat →
  run (listener self event) net = (Ok tt, []).
Proof.
  intros [Hlong|Hcount].
  - by apply listener_above_threshold.
  - unfold handle_double_emoji_message.
    destruct (10 <? _)%nat; [done|].
    apply Nat.eqb_neq in Hcount. by rewrite Hcount.
Qed.

(** On a message of at most 10 characters the listener probes exactly what
    the command flow probes on the same message, and raises exactly when it
    does; only the reply is dropped. *)
Theorem passive_listener_follows_command self event net :
  (length (strip (message_str event)) ≤ 10)%nat →
  (run (listener self event) net).2 = (run (command self event) net).2
  ∧ (raises (run (listener self event) net).1
     ↔ raises (run (command self event) net).1).
Proof.
  intros Hlen. unfold handle_double_emoji_message, emoji_mix_handler.
  apply Nat.ltb_ge in Hlen. rewrite Hlen.
  destruct (length (extract self (strip (message_str event))) =? 2)%nat
    eqn:Hcount.
  - rewrite run_bind.
    destruct (run (_process_mix_request self event _) net) as [[reply|e] probes];
      [|done].
    rewrite run_ret, app_nil_r. done.
  - apply Nat.eqb_neq in Hcount. by rewrite process_not_two.
Qed.

End EntryPoints.

Lemma passive_listener_silent_witness :
  run (handle_double_emoji_message pictograph_list pictograph_is_emoji
         remove_dups the_plugin (message "😊")) all_found
  = (Ok tt, []).
Proof.
  apply (passive_listener_silent pictograph_list pictograph_is_emoji
           remove_dups the_plugin (message "😊") all_found).
  right. vm_compute. discriminate.
Defined.

Lemma passive_listener_follows_command_witness :
  (run (handle_double_emoji_message pictograph_list pictograph_is_emoji
          remove_dups the_plugin (message "😊🐶")) only_swapped_20241023).2
  = (run (emoji_mix_handler pictograph_list pictograph_is_emoji
            remove_dups the_plugin (message "😊🐶")) only_swapped_20241023).2
  ∧ (raises (run (handle_double_emoji_message pictograph_list
                    pictograph_is_emoji remove_dups the_plugin
                    (message "😊🐶")) only_swapped_20241023).1
     ↔ raises (run (emoji_mix_handler pictograph_list pictograph_is_emoji
                      remove_dups the_plugin (message "😊🐶"))
                 only_swapped_20241023).1).
Proof.
  apply (passive_listener_follows_command pictograph_list pictograph_is_emoji
           remove_dups the_plugin (message "😊🐶") only_swapped_20241023).
  vm_compute. lia.
Defined.

Lemma listener_mixes_valid_pair_witness :
  (run (handle_double_emoji_message pictograph_list pictograph_is_emoji
          remove_dups the_plugin (message "😊🐶")) all_500).2
  = (run (_find_mixed_emoji_url the_plugin (py "😊") (py "🐶")) all_500).2
  ∨ (run (handle_double_emoji_message pictograph_list pictograph_is_emoji
            remove_dups the_plugin (message "😊🐶")) all_500).2
    = (run (_find_mixed_emoji_url the_plugin (py "🐶") (py "😊")) all_500).2.
Proof.
  apply (listener_mixes_valid_pair pictograph_list pictograph_is_emoji
           remove_dups remove_dups_lawful the_plugin (message "😊🐶")
           (pictograph_matches 0 (py "😊🐶")) [py "😊"; py "🐶"]
           (py "😊") (py "🐶") all_500).
  - vm_compute. reflexivity.
  - vm_compute. lia.
  - reflexivity.
  - vm_compute. reflexivity.
  - discriminate.
  - intros x. rewrite elem_of_cons, list_elem_of_singleton. done.
Defined.
